(** * Study Tracker backend: the account store of [app.py]

    A shallow embedding of [load_users], [save_users], [is_valid_email],
    [is_valid_password], [register] and [login], and the properties the
    specification states about them.

    Conventions of the embedding.
    - A Python [str] is a [string]; each [ascii] is the code point of that
      number, so the strings covered are those of code points below 256,
      where [str.strip] and [str.lower] act character by character.
    - The values [json.load] and [request.get_json] produce are [pyval];
      a Python [dict] with [str] keys is a [gmap string pyval].
    - The file system, the log and the calls of [save_users] are the
      components of an explicit [world] that every effectful function
      threads; an exception is a value of [exn] in the left of a sum.
    - What the program imports ([json], [werkzeug.security]) is the
      interface [Libraries]; [LibrariesLaws] is the one law of [json] the
      proofs rely on, and [Ref] an implementation to run the program with. *)

From Stdlib Require Import ZArith String Ascii List Bool PrimFloat Lia.
From Stdlib Require Import Decimal DecimalString DecimalN DecimalZ.
From stdpp Require Import gmap strings list fin_maps option.

Set Warnings "-register-all".
Local Open Scope string_scope.
Local Open Scope Z_scope.

(* ===================================================================== *)
(** ** Python strings *)
(* ===================================================================== *)

Module PyStr.

(** [str.isspace] on one character: the code points below 256 that
    Python counts as white space. *)
Definition isspace (c : ascii) : bool :=
  let n := N_of_ascii c in
  ((9 <=? n) && (n <=? 13) || (28 <=? n) && (n <=? 32)
   || (n =? 133) || (n =? 160))%N.

(** [str.lower] on one character: A-Z, and the capital letters of
    Latin-1 (192-222 without the multiplication sign 215), move up by 32. *)
Definition lower_char (c : ascii) : ascii :=
  let n := N_of_ascii c in
  if ((65 <=? n) && (n <=? 90)
      || (192 <=? n) && (n <=? 222) && negb (n =? 215))%N
  then ascii_of_N (n + 32) else c.

Fixpoint lower (s : string) : string :=
  match s with
  | EmptyString => EmptyString
  | String c s' => String (lower_char c) (lower s')
  end.

Fixpoint lstrip (s : string) : string :=
  match s with
  | EmptyString => EmptyString
  | String c s' => if isspace c then lstrip s' else s
  end.

Fixpoint rstrip (s : string) : string :=
  match s with
  | EmptyString => EmptyString
  | String c s' =>
      match rstrip s' with
      | EmptyString => if isspace c then EmptyString else String c EmptyString
      | r => String c r
      end
  end.

(** [s.strip()] *)
Definition strip (s : string) : string := rstrip (lstrip s).

(** [sub in s] for two strings: [sub] starts at some position of [s]. *)
Fixpoint contains (sub s : string) : bool :=
  String.prefix sub s
  || match s with
     | EmptyString => false
     | String _ s' => contains sub s'
     end.

(** [len(s)] *)
Definition len (s : string) : Z := Z.of_nat (String.length s).

End PyStr.

(* ===================================================================== *)
(** ** Python values *)
(* ===================================================================== *)

(** The values of the JSON data model as Python holds them. *)
Inductive pyval : Type :=
  | PNone
  | PBool (b : bool)
  | PInt (n : Z)
  | PFloat (f : float)
  | PStr (s : string)
  | PList (l : list pyval)
  | PDict (d : gmap string pyval).

(** The exceptions the program can meet. *)
Inductive exn : Type :=
  | JSONDecodeError
  | UnicodeDecodeError
  | OSError
  | AttributeError
  | TypeError
  | ValueError.

(** Truth value testing ([bool(v)]): [None], [False], zero, and the empty
    string, list and dict are false. *)
Definition truthy (v : pyval) : bool :=
  match v with
  | PNone => false
  | PBool b => b
  | PInt n => negb (n =? 0)
  | PFloat f => negb (PrimFloat.eqb f 0%float)
  | PStr s => negb (String.eqb s "")
  | PList l => match l with [] => false | _ => true end
  | PDict d => negb (bool_decide (d = ∅))
  end.

(** [a or b] *)
Definition py_or (a b : pyval) : pyval := if truthy a then a else b.

(** [v.get(k)]: only a dict has the method. *)
Definition py_get (v : pyval) (k : string) : exn + pyval :=
  match v with
  | PDict d => inr (default PNone (d !! k))
  | _ => inl AttributeError
  end.

(** The normal form of an email, [s.strip().lower()]. *)
Definition normalize (s : string) : string := PyStr.lower (PyStr.strip s).

(** [v.strip().lower()]: only a str has the methods. *)
Definition py_strip_lower (v : pyval) : exn + string :=
  match v with
  | PStr s => inr (normalize s)
  | _ => inl AttributeError
  end.

(* ===================================================================== *)
(** ** CredentialValidator *)
(* ===================================================================== *)

(** [isinstance(email, str) and "@" in email and len(email) >= 5] *)
Definition is_valid_email (email : pyval) : bool :=
  match email with
  | PStr s => PyStr.contains "@" s && (5 <=? PyStr.len s)
  | _ => false
  end.

(** [isinstance(password, str) and len(password) >= 6] *)
Definition is_valid_password (password : pyval) : bool :=
  match password with
  | PStr s => 6 <=? PyStr.len s
  | _ => false
  end.

(* ===================================================================== *)
(** ** The imported libraries *)
(* ===================================================================== *)

(** What [app.py] imports and calls, as an interface.
    - [text] is what a file holds; [json_load] is [json.load] on a file
      opened with [encoding="utf-8"]: the decoded value, or the exception
      raised ([JSONDecodeError] for text that is no JSON document,
      [UnicodeDecodeError] for bytes that are no UTF-8);
      [json.dump(v, f, indent=2)] writes [json_dump v] to [f] and then,
      when [json_dump_error v] is [Some e], raises [e]: what it has
      written by then is the part of the document encoded so far (it
      raises [ValueError] on an int of more digits than
      [sys.int_max_str_digits] allows).
    - [generate_password_hash password salt] is werkzeug's salted hash, the
      salt it draws made an argument; [check_password_hash pwhash password]
      is its check, which raises on arguments it cannot handle. *)
Class Libraries : Type := {
  text : Type;
  json_load : text -> exn + pyval;
  json_dump : pyval -> text;
  json_dump_error : pyval -> option exn;
  generate_password_hash : string -> string -> string;
  check_password_hash : pyval -> pyval -> exn + bool;
}.

(** The laws of [json] the program relies on. A value that [json.dump]
    encodes without raising loads back from its dump. It raises on no
    value that [json.load] returned, nor on the empty dict, nor on a dict
    it encodes to which a record of two strings is added. *)
Class LibrariesLaws (L : Libraries) : Prop := {
  json_load_dump :
    forall v : pyval, json_dump_error v = None -> json_load (json_dump v) = inr v;
  json_dump_loaded :
    forall (t : text) (v : pyval), json_load t = inr v -> json_dump_error v = None;
  json_dump_empty : json_dump_error (PDict ∅) = None;
  json_dump_record :
    forall (d : gmap string pyval) (k pw_hash created_at : string),
      json_dump_error (PDict d) = None ->
      json_dump_error
        (PDict (<[k := PDict {[ "password_hash" := PStr pw_hash;
                                "created_at" := PStr created_at ]}]> d)) = None;
}.

(* ===================================================================== *)
(** ** The world: files, log, calls *)
(* ===================================================================== *)

Section World.
Context {L : Libraries}.

(** An entry of the working directory. *)
Inductive node : Type :=
  | File (data : text)
  | Dir.

Inductive log_level : Type := WARNING | ERROR.

(** What the program leaves behind besides files: the records it logs and
    the calls of [save_users] (kept to count them). *)
Inductive event : Type :=
  | Logged (level : log_level) (msg : string)
  | SaveCalled (users : gmap string pyval).

(** [files] maps a path of the working directory to its entry; [writable]
    says whether the directory lets entries be created, renamed and
    replaced. *)
Record world : Type := World {
  files : gmap string node;
  writable : bool;
  trace : list event;
}.

Definition set_files (fs : gmap string node) (w : world) : world :=
  {| files := fs; writable := writable w; trace := trace w |}.

Definition emit (e : event) (w : world) : world :=
  {| files := files w; writable := writable w; trace := trace w ++ [e] |}.

(** [log.warning(msg)] and [log.exception(msg)] *)
Definition log_warning (msg : string) : world -> world := emit (Logged WARNING msg).
Definition log_exception (msg : string) : world -> world := emit (Logged ERROR msg).

Definition is_dir (p : string) (w : world) : bool :=
  match files w !! p with Some Dir => true | _ => false end.

(** [os.path.exists(p)] *)
Definition path_exists (p : string) (w : world) : bool :=
  bool_decide (is_Some (files w !! p)).

(** [open(p, "r", encoding="utf-8")] and reading it: a directory or a
    missing path raises. *)
Definition open_read (p : string) (w : world) : exn + text :=
  match files w !! p with
  | Some (File t) => inr t
  | _ => inl OSError
  end.

(** [with open(p, "w", encoding="utf-8") as f: f.write(t)]: an existing
    file is overwritten, a new one needs a writable directory, a directory
    cannot be opened. *)
Definition write_file (p : string) (t : text) (w : world) : exn + world :=
  match files w !! p with
  | Some Dir => inl OSError
  | Some (File _) => inr (set_files (<[p := File t]> (files w)) w)
  | None =>
      if writable w then inr (set_files (<[p := File t]> (files w)) w)
      else inl OSError
  end.

(** [os.rename(src, dst)] and [os.replace(src, dst)] of a file, as POSIX
    has them: the directory must be writable, [src] must be a file, and
    [dst] is silently replaced unless it is a directory. *)
Definition os_rename (src dst : string) (w : world) : exn + world :=
  match files w !! src with
  | Some (File t) =>
      if writable w && negb (is_dir dst w)
      then inr (set_files (<[dst := File t]> (delete src (files w))) w)
      else inl OSError
  | _ => inl OSError
  end.

Definition os_replace := os_rename.

End World.

Arguments node : clear implicits.
Arguments event : clear implicits.
Arguments world : clear implicits.

(* ===================================================================== *)
(** ** UserStore *)
(* ===================================================================== *)

Definition USERS_FILE : string := "users.json".

Section Program.
Context {L : Libraries}.

(** [load_users()]: the table, and the world it leaves (a corrupt file
    renamed, a record logged). *)
Definition load_users (w : world L) : gmap string pyval * world L :=
  if negb (path_exists USERS_FILE w) then (∅, w)
  else
    match open_read USERS_FILE w with
    | inl _ => (∅, log_exception "Failed to load users.json" w)
    | inr f =>
        match json_load f with
        | inr data =>
            (match data with PDict d => d | _ => ∅ end, w)
        | inl JSONDecodeError =>
            match os_rename USERS_FILE (USERS_FILE +:+ ".corrupt") w with
            | inr w' =>
                (∅, log_warning "Corrupt users.json renamed to users.json.corrupt" w')
            | inl _ =>
                (∅, log_exception "Could not rename corrupt users file." w)
            end
        | inl _ => (∅, log_exception "Failed to load users.json" w)
        end
    end.

(** [save_users(users)]: open the temporary file and dump the table into
    it, then replace the real file; a failure of any step (the open, the
    dump, the replace) is logged and nothing is raised. A dump that
    raises leaves what it wrote in the temporary file. *)
Definition save_users (users : gmap string pyval) (w : world L) : world L :=
  let w := emit (SaveCalled users) w in
  let tmp := USERS_FILE +:+ ".tmp" in
  match write_file tmp (json_dump (PDict users)) w with
  | inl _ => log_exception "Failed to save users.json" w
  | inr w1 =>
      match json_dump_error (PDict users) with
      | Some _ => log_exception "Failed to save users.json" w1
      | None =>
          match os_replace tmp USERS_FILE w1 with
          | inl _ => log_exception "Failed to save users.json" w1
          | inr w2 => w2
          end
      end
  end.

(* ===================================================================== *)
(** ** AccountService and its two routes *)
(* ===================================================================== *)

(** What a view function hands back to Flask: [jsonify(payload), status],
    or an exception it did not catch. *)
Inductive outcome : Type :=
  | Respond (payload : pyval) (status : Z)
  | Unhandled (e : exn).

(** The status the client sees; Flask answers 500 for an exception. *)
Definition status_of (o : outcome) : Z :=
  match o with
  | Respond _ s => s
  | Unhandled _ => 500
  end.

(** [jsonify({"message": m})] *)
Definition message (m : string) : pyval := PDict {[ "message" := PStr m ]}.

(** The first three statements of [register] and of [login]:
<<
    data = request.get_json(silent=True) or {}
    email = (data.get("email") or "").strip().lower()
    password = data.get("password") or ""
>>
    [body] is what [request.get_json(silent=True)] returned: [None] when
    the request has no JSON body or one that does not parse. *)
Definition read_credentials (body : option pyval) : exn + (string * pyval) :=
  let data := py_or (default PNone body) (PDict ∅) in
  match py_get data "email" with
  | inl e => inl e
  | inr x =>
      match py_strip_lower (py_or x (PStr "")) with
      | inl e => inl e
      | inr email =>
          match py_get data "password" with
          | inl e => inl e
          | inr y => inr (email, py_or y (PStr ""))
          end
      end
  end.

(** The text of a value known to be a str. *)
Definition str_of (v : pyval) : string :=
  match v with PStr s => s | _ => "" end.

(** [register()]. [salt] is what [generate_password_hash] draws and [now]
    is [datetime.utcnow().isoformat()]. *)
Definition register (body : option pyval) (salt now : string) (w : world L)
  : outcome * world L :=
  match read_credentials body with
  | inl e => (Unhandled e, w)
  | inr (email, password) =>
      if negb (is_valid_email (PStr email)) || negb (is_valid_password password)
      then (Respond (message "Invalid email or password (min length 6).") 400, w)
      else
        let '(users, w) := load_users w in
        if bool_decide (is_Some (users !! email))
        then (Respond (message "Email already exists") 409, w)
        else
          let pw_hash := generate_password_hash (str_of password) salt in
          let users :=
            <[ email := PDict {[ "password_hash" := PStr pw_hash;
                                 "created_at" := PStr (now +:+ "Z") ]} ]> users in
          let w := save_users users w in
          (Respond (message "Account created successfully") 201, w)
  end.

(** [login()] *)
Definition login (body : option pyval) (w : world L) : outcome * world L :=
  match read_credentials body with
  | inl e => (Unhandled e, w)
  | inr (email, password) =>
      if negb (truthy (PStr email)) || negb (truthy password)
      then (Respond (message "Email and password required") 400, w)
      else
        let '(users, w) := load_users w in
        let user := default PNone (users !! email) in
        if negb (truthy user)
        then (Respond (message "Invalid email or password") 401, w)
        else
          match py_get user "password_hash" with
          | inl e => (Unhandled e, w)
          | inr stored_hash =>
              if negb (truthy stored_hash)
              then (Respond (message "Invalid email or password") 401, w)
              else
                match check_password_hash stored_hash password with
                | inl e => (Unhandled e, w)
                | inr false => (Respond (message "Invalid email or password") 401, w)
                | inr true =>
                    match py_get user "created_at" with
                    | inl e => (Unhandled e, w)
                    | inr created_at =>
                        (Respond
                           (PDict {[ "message" := PStr "Login successful";
                                     "user" := PDict {[ "email" := PStr email;
                                                        "created_at" := created_at ]} ]})
                           200, w)
                    end
                end
          end
  end.

End Program.

(* ===================================================================== *)
(** ** Vocabulary of the properties *)
(* ===================================================================== *)

Section Vocabulary.
Context {L : Libraries}.

(** Where [load_users] moves a file it cannot parse, and where
    [save_users] writes before it replaces. *)
Definition CORRUPT_FILE : string := USERS_FILE +:+ ".corrupt".
Definition TMP_FILE : string := USERS_FILE +:+ ".tmp".

(** A request body [{"email": e, "password": p}]. *)
Definition credentials (e : string) (p : pyval) : option pyval :=
  Some (PDict {[ "email" := PStr e; "password" := p ]}).

(** The record [register] stores. *)
Definition user_record (pw_hash created_at : string) : pyval :=
  PDict {[ "password_hash" := PStr pw_hash; "created_at" := PStr created_at ]}.

(** A user record and a user table as the data model has them: two
    strings per record, a record per email. [table_of] is the dict that
    [save_users] is handed for such a table. *)
Record UserRecord : Type := {
  password_hash : string;
  created_at : string;
}.

Definition record_of (u : UserRecord) : pyval :=
  user_record (password_hash u) (created_at u).

Definition table_of (T : gmap string UserRecord) : gmap string pyval :=
  record_of <$> T.

(** The number of calls of [save_users] so far. *)
Definition is_save_call (e : event) : bool :=
  match e with SaveCalled _ => true | Logged _ _ => false end.

Definition save_calls (w : world L) : nat :=
  length (List.filter is_save_call (trace w)).

(** The directory lets [save_users] through: entries can be created and
    replaced, and neither the temporary path nor the real one is a
    directory. *)
Definition storage_ok (w : world L) : bool :=
  writable w && negb (is_dir TMP_FILE w) && negb (is_dir USERS_FILE w).

(** [open(users.json.tmp, "w")] goes through: the path is a file, or it
    is free and the directory is writable. *)
Definition tmp_open_ok (w : world L) : bool :=
  match files w !! TMP_FILE with
  | Some Dir => false
  | Some (File _) => true
  | None => writable w
  end.

(** [json.dump] does not raise on [v]. *)
Definition dump_ok (v : pyval) : bool :=
  match json_dump_error v with
  | None => true
  | Some _ => false
  end.

(** The directory lets [load_users] move a corrupt file aside. *)
Definition quarantine_ok (w : world L) : bool :=
  writable w && negb (is_dir CORRUPT_FILE w).

(** [password] does not open the record [r]: the record has no usable
    hash, or the check of the hash says no. *)
Definition wrong_password (r : gmap string pyval) (password : pyval) : Prop :=
  let stored_hash := default PNone (r !! "password_hash") in
  truthy stored_hash = false \/ check_password_hash stored_hash password = inr false.



End Vocabulary.

(* ===================================================================== *)
(** ** A reference implementation of the libraries *)
(* ===================================================================== *)

(** A small implementation of [Libraries], to run the program on concrete
    worlds. A file is kept as what [json.load] makes of it; the hash is a
    toy: method, salt and a mix of salt and password, joined by dollars. *)
Module Ref.

Inductive ref_text : Type :=
  | Document (v : pyval)      (* a JSON document that decodes to [v] *)
  | NotJson (s : string)      (* UTF-8 text that is no JSON document *)
  | NotUtf8.                  (* bytes that are no UTF-8 *)

(** The number of digits of the decimal numeral of [n]. *)
Definition digits (n : Z) : Z := Z.of_nat (Decimal.nb_digits (N.to_uint (Z.abs_N n))).

(** [v] holds an int of more than 4300 digits, which Python converts
    neither to a numeral nor from one. *)
Fixpoint too_long (v : pyval) : bool :=
  match v with
  | PInt n => 4300 <? digits n
  | PList l => existsb too_long l
  | PDict d => map_fold (fun _ x acc => too_long x || acc) false d
  | _ => false
  end.

Definition load (t : ref_text) : exn + pyval :=
  match t with
  | Document v => if too_long v then inl ValueError else inr v
  | NotJson _ => inl JSONDecodeError
  | NotUtf8 => inl UnicodeDecodeError
  end.

(** The dump: the document, or its beginning when an int is too long. *)
Definition dump (v : pyval) : ref_text :=
  if too_long v then NotJson "{" else Document v.

Definition dump_error (v : pyval) : option exn :=
  if too_long v then Some ValueError else None.

Fixpoint rev_string (s acc : string) : string :=
  match s with
  | EmptyString => acc
  | String c s' => rev_string s' (String c acc)
  end.

Definition mix (salt password : string) : string :=
  rev_string (salt +:+ password) "".

Definition generate (password salt : string) : string :=
  "toy$" +:+ salt +:+ "$" +:+ mix salt password.

(** [s.split(c, 1)], when [c] occurs. *)
Fixpoint split_once (c : ascii) (s : string) : option (string * string) :=
  match s with
  | EmptyString => None
  | String a s' =>
      if Ascii.eqb a c then Some (EmptyString, s')
      else match split_once c s' with
           | Some (l, r) => Some (String a l, r)
           | None => None
           end
  end.

Definition check (pwhash password : pyval) : exn + bool :=
  match pwhash with
  | PStr h =>
      match split_once "$" h with
      | Some (_, rest) =>
          match split_once "$" rest with
          | Some (salt, hashval) =>
              match password with
              | PStr p => inr (String.eqb (mix salt p) hashval)
              | _ => inl AttributeError
              end
          | None => inr false
          end
      | None => inr false
      end
  | _ => inl AttributeError
  end.

Definition libraries : Libraries :=
  {| text := ref_text;
     json_load := load;
     json_dump := dump;
     json_dump_error := dump_error;
     generate_password_hash := generate;
     check_password_hash := check |}.

(** A working directory with the given entries and nothing logged. *)
Definition dir (fs : gmap string (node libraries)) (rw : bool) : world libraries :=
  {| files := fs; writable := rw; trace := [] |}.

End Ref.

(** ** Concrete worlds *)

(** An empty working directory, writable or not. *)
Definition empty_dir (rw : bool) : world Ref.libraries := Ref.dir ∅ rw.

(** A directory whose backing file holds [t]. *)
Definition dir_with (t : Ref.ref_text) (rw : bool) : world Ref.libraries :=
  Ref.dir {[ USERS_FILE := @File Ref.libraries t ]} rw.

(** The table with the one account of the specification's scenario. *)
Definition one_user : gmap string pyval :=
  {[ "a@b.com" := user_record (Ref.generate "secret1" "NaCl") "2024-01-01T00:00:00Z" ]}.

(** The same table as the data model has it. *)
Definition one_user_table : gmap string UserRecord :=
  {[ "a@b.com" := {| password_hash := Ref.generate "secret1" "NaCl";
                     created_at := "2024-01-01T00:00:00Z" |} ]}.

(* ===================================================================== *)
(** ** More vocabulary: table invariant, ill-typed requests *)
(* ===================================================================== *)

(** The invariant of the keys of a table: each is a valid email and its
    own normal form. *)
Definition keys_ok (users : gmap string pyval) : Prop :=
  forall k, is_Some (users !! k) ->
            is_valid_email (PStr k) = true /\ normalize k = k.

(** A JSON body on which the first statements of [register] and [login]
    raise: a true value that is no object, or an object whose email field
    is a true value that is no string. *)
Definition ill_typed_body (body : option pyval) : Prop :=
  match body with
  | None => False
  | Some (PDict d) =>
      exists x, d !! "email" = Some x /\ truthy x = true /\ forall s, x <> PStr s
  | Some v => truthy v = true
  end.

(** The table an entry of the directory stands for: the object a file
    decodes to, and the empty table for anything else. *)
Definition stored_table {L : Libraries} (entry : option (node L)) : gmap string pyval :=
  match entry with
  | Some (File t) =>
      match json_load t with
      | inr (PDict d) => d
      | _ => ∅
      end
  | _ => ∅
  end.

(** [s] does not start with white space. *)
Definition no_space_ahead (s : string) : Prop :=
  match s with
  | EmptyString => True
  | String c _ => PyStr.isspace c = false
  end.

(** Every character of [s] is white space for [str.strip]. *)
Fixpoint all_space (s : string) : bool :=
  match s with
  | EmptyString => true
  | String c s' => PyStr.isspace c && all_space s'
  end.

(* ===================================================================== *)
(** ** The entry point *)
(* ===================================================================== *)

Module PyInt.

(** White space for [int(s)]: the ASCII white space of C, and the two
    code points between 128 and 255 that are Unicode white space. The
    separators 28 to 31, which [str.strip] removes, are not accepted. *)
Definition isspace (c : ascii) : bool :=
  let n := N_of_ascii c in
  ((9 <=? n) && (n <=? 13) || (n =? 32) || (n =? 133) || (n =? 160))%N.

Fixpoint skip_space (s : string) : string :=
  match s with
  | EmptyString => EmptyString
  | String c s' => if isspace c then skip_space s' else s
  end.

(** A decimal digit, put in front of the digits that follow it. *)
Definition digit (c : ascii) : option (Decimal.uint -> Decimal.uint) :=
  match c with
  | "0" => Some Decimal.D0 | "1" => Some Decimal.D1 | "2" => Some Decimal.D2
  | "3" => Some Decimal.D3 | "4" => Some Decimal.D4 | "5" => Some Decimal.D5
  | "6" => Some Decimal.D6 | "7" => Some Decimal.D7 | "8" => Some Decimal.D8
  | "9" => Some Decimal.D9
  | _ => None
  end%char.

(** The digits after a first one, single underscores allowed between two
    digits, and what is left of the string. *)
Fixpoint more_digits (s : string) : Decimal.uint * string :=
  match s with
  | EmptyString => (Decimal.Nil, EmptyString)
  | String c s' =>
      match digit c with
      | Some d => let '(ds, rest) := more_digits s' in (d ds, rest)
      | None =>
          if Ascii.eqb c "_" then
            match s' with
            | String c2 s'' =>
                match digit c2 with
                | Some d => let '(ds, rest) := more_digits s'' in (d ds, rest)
                | None => (Decimal.Nil, s)
                end
            | EmptyString => (Decimal.Nil, s)
            end
          else (Decimal.Nil, s)
      end
  end.

(** The default of [sys.int_max_str_digits]. *)
Definition max_str_digits : nat := 4300.

(** The numeral after the sign: digits, then white space to the end, at
    most [max_str_digits] digits. *)
Definition magnitude (s : string) : exn + Z :=
  match s with
  | EmptyString => inl ValueError
  | String c s' =>
      match digit c with
      | None => inl ValueError
      | Some d =>
          let '(ds, rest) := more_digits s' in
          match skip_space rest with
          | EmptyString =>
              if (max_str_digits <? Decimal.nb_digits (d ds))%nat
              then inl ValueError
              else inr (Z.of_N (N.of_uint (d ds)))
          | String _ _ => inl ValueError
          end
      end
  end.

(** [int(s)] for a str [s]: white space, an optional sign, the numeral. *)
Definition int (s : string) : exn + Z :=
  match skip_space s with
  | EmptyString => inl ValueError
  | String c s' =>
      if Ascii.eqb c "-" then
        match magnitude s' with
        | inr n => inr (- n)
        | inl e => inl e
        end
      else if Ascii.eqb c "+" then magnitude s'
      else magnitude (String c s')
  end.

(** ["%d" % n] *)
Definition fmt_d (n : Z) : string := NilEmpty.string_of_int (Z.to_int n).

(** A character no text that [int] accepts contains: neither a digit,
    an underscore, a sign nor white space. *)
Definition foreign (c : ascii) : bool :=
  match digit c with
  | Some _ => false
  | None => negb (Ascii.eqb c "_" || Ascii.eqb c "+" || Ascii.eqb c "-" || isspace c)
  end.

Fixpoint has_foreign (s : string) : bool :=
  match s with
  | EmptyString => false
  | String c s' => foreign c || has_foreign s'
  end.

End PyInt.

(** What running the script comes to: the records logged and the call
    [app.run(host=host, port=port, debug=debug)], or an exception that
    ends the process before the server starts. *)
Inductive launch : Type :=
  | Run (log : list (string * string)) (host : string) (port : Z) (debug : bool)
  | Raised (e : exn).

(** The last two statements of [main]: the record at level INFO and the
    call of [app.run]. *)
Definition serve (log : list (string * string)) (port : Z) : launch :=
  Run (log ++ [("INFO",
                "Starting Study Tracker Backend on http://127.0.0.1:"
                +:+ PyInt.fmt_d port)])
      "127.0.0.1" port true.

(** [main()]. [environ] is [os.environ] and [argv] is [sys.argv]. *)
Definition main (environ : gmap string string) (argv : list string) : launch :=
  match PyInt.int (default "5000" (environ !! "PORT")) with
  | inl e => Raised e
  | inr default_port =>
      match argv with
      | _ :: a :: _ =>
          match PyInt.int a with
          | inr port => serve [] port
          | inl ValueError =>
              serve [("WARNING",
                      "Invalid port arg, using default " +:+ PyInt.fmt_d default_port)]
                    default_port
          | inl e => Raised e
          end
      | _ => serve [] default_port
      end
  end.

(* ===================================================================== *)
(** * Properties *)
(* ===================================================================== *)

(** ** Strings *)

Lemma append_cons (c : ascii) (s t : string) :
  String c s +:+ t = String c (s +:+ t).
Proof. reflexivity. Qed.

Lemma prefix_spec (sub s : string) :
  String.prefix sub s = true <-> exists post, s = sub +:+ post.
Proof.
  revert s. induction sub as [|c sub IH]; intros s.
  - destruct s; simpl; split; eauto.
  - destruct s as [|c' s]; simpl.
    + split; [discriminate | intros [post H]; rewrite append_cons in H; discriminate].
    + destruct (Ascii.ascii_dec c c') as [->|Hne].
      * rewrite IH. split; intros [post H]; exists post;
          rewrite append_cons in *; congruence.
      * split; [discriminate | intros [post H]; rewrite append_cons in H; congruence].
Qed.

Lemma contains_spec (sub s : string) :
  PyStr.contains sub s = true <-> exists pre post, s = pre +:+ sub +:+ post.
Proof.
  induction s as [|c s IH]; cbn [PyStr.contains].
  - rewrite orb_false_r, prefix_spec. split.
    + intros [post H]. exists "", post. exact H.
    + intros [pre [post H]]. destruct pre as [|c' pre];
        [eauto | rewrite append_cons in H; discriminate].
  - rewrite orb_true_iff, prefix_spec, IH. split.
    + intros [[post H] | [pre [post H]]].
      * exists "", post. exact H.
      * exists (String c pre), post. rewrite append_cons. congruence.
    + intros [pre [post H]]. destruct pre as [|c' pre].
      * left. eauto.
      * right. exists pre, post. rewrite append_cons in H. congruence.
Qed.

(** ** CredentialValidator *)

(** C5: [is_valid_email v] is true exactly when [v] is a string that
    contains "@" and has at least 5 characters, and [is_valid_password v]
    is true exactly when [v] is a string of at least 6 characters. *)
Theorem validators_spec (v : pyval) :
  (is_valid_email v = true <->
     exists s, v = PStr s
               /\ (exists pre post, s = pre +:+ "@" +:+ post)
               /\ (5 <= String.length s)%nat)
  /\ (is_valid_password v = true <->
        exists s, v = PStr s /\ (6 <= String.length s)%nat).
Proof.
  split.
  - destruct v; simpl; try (split; [discriminate | intros (s' & H & _); discriminate]).
    rewrite andb_true_iff, contains_spec, Z.leb_le. unfold PyStr.len. split.
    + intros [Hat Hlen]. exists s. repeat split; [exact Hat | lia].
    + intros (s' & [= <-] & Hat & Hlen). split; [exact Hat | lia].
  - destruct v; simpl; try (split; [discriminate | intros (s' & H & _); discriminate]).
    rewrite Z.leb_le. unfold PyStr.len. split.
    + intros Hlen. exists s. split; [reflexivity | lia].
    + intros (s' & [= <-] & Hlen). lia.
Qed.

(** ** UserStore *)

Section StoreProperties.
Context {L : Libraries}.
Implicit Types (w : world L) (T users : gmap string pyval).

Lemma tmp_ne_users : TMP_FILE <> USERS_FILE.
Proof. discriminate. Qed.

Lemma corrupt_ne_users : CORRUPT_FILE <> USERS_FILE.
Proof. discriminate. Qed.

Lemma corrupt_ne_tmp : CORRUPT_FILE <> TMP_FILE.
Proof. discriminate. Qed.

Lemma path_exists_false p w : path_exists p w = false <-> files w !! p = None.
Proof.
  unfold path_exists. rewrite bool_decide_eq_false, <- eq_None_not_Some. tauto.
Qed.

Lemma path_exists_true p w n : files w !! p = Some n -> path_exists p w = true.
Proof. intros H. unfold path_exists. apply bool_decide_eq_true. eauto. Qed.

(** The first test of [load_users]. *)
Lemma load_users_no_path w :
  path_exists USERS_FILE w = false -> load_users w = (∅, w).
Proof. intros H. unfold load_users. rewrite H. reflexivity. Qed.

(** Past the first test, [load_users] opens the file. *)
Ltac open_backing_file Hf :=
  unfold load_users; rewrite (path_exists_true _ _ _ Hf); simpl;
  unfold open_read; rewrite Hf.

(** C8: when the backing file does not exist, [load_users] returns the
    empty table; it raises nothing and leaves the world as it was. *)
Theorem load_users_missing w :
  files w !! USERS_FILE = None -> load_users w = (∅, w).
Proof.
  intros H. apply load_users_no_path, path_exists_false, H.
Qed.

(** C10: when the backing file holds well-formed JSON whose top-level
    value is not an object, [load_users] returns the empty table and
    leaves the world as it was: the file stays under its name, nothing is
    renamed to the [.corrupt] path, nothing is logged. *)
Theorem load_users_not_object w (t : text) (v : pyval) :
  files w !! USERS_FILE = Some (File t) ->
  json_load t = inr v ->
  (forall d, v <> PDict d) ->
  load_users w = (∅, w)
  /\ files (load_users w).2 !! USERS_FILE = Some (File t)
  /\ files (load_users w).2 !! CORRUPT_FILE = files w !! CORRUPT_FILE.
Proof.
  intros Hf Hj Hv.
  assert (Hsame : load_users w = (∅, w)).
  { open_backing_file Hf. rewrite Hj.
    destruct v; try reflexivity. exfalso. eapply Hv. reflexivity. }
  rewrite Hsame. simpl. auto.
Qed.

(** What [load_users] does to a file [json.load] rejects as no JSON. *)
Lemma load_users_corrupt w (t : text) :
  files w !! USERS_FILE = Some (File t) ->
  json_load t = inl JSONDecodeError ->
  load_users w =
    if quarantine_ok w
    then (∅, log_warning "Corrupt users.json renamed to users.json.corrupt"
               (set_files (<[CORRUPT_FILE := File t]> (delete USERS_FILE (files w))) w))
    else (∅, log_exception "Could not rename corrupt users file." w).
Proof.
  intros Hf Hj. open_backing_file Hf. rewrite Hj.
  unfold os_rename. rewrite Hf. fold CORRUPT_FILE. unfold quarantine_ok.
  destruct (writable w && negb (is_dir CORRUPT_FILE w)); reflexivity.
Qed.

(** The shapes of a call of [load_users]: the world is untouched, or a
    record is logged and the table is empty, or the file is moved aside
    and the table is empty. *)
Lemma load_users_cases w :
  (load_users w).2 = w
  \/ (exists msg, load_users w = (∅, log_exception msg w))
  \/ (exists (t : text),
        files w !! USERS_FILE = Some (File t)
        /\ json_load t = inl JSONDecodeError
        /\ quarantine_ok w = true
        /\ load_users w =
             (∅, log_warning "Corrupt users.json renamed to users.json.corrupt"
                   (set_files (<[CORRUPT_FILE := File t]> (delete USERS_FILE (files w))) w))).
Proof.
  destruct (files w !! USERS_FILE) as [[t|]|] eqn:Hf.
  - destruct (json_load t) as [e|v] eqn:Hj.
    + destruct e;
        try (right; left; eexists; open_backing_file Hf; rewrite Hj; reflexivity).
      destruct (quarantine_ok w) eqn:Hq.
      * right; right. exists t. rewrite (load_users_corrupt w t Hf Hj), Hq. auto.
      * right; left. rewrite (load_users_corrupt w t Hf Hj), Hq. eauto.
    + left. open_backing_file Hf. rewrite Hj. reflexivity.
  - right; left. eexists. open_backing_file Hf. reflexivity.
  - left. rewrite load_users_no_path; [reflexivity |].
    apply path_exists_false, Hf.
Qed.

(** A table with an entry was read from an intact file: the world is the
    one before the call. *)
Lemma load_users_entry w k :
  is_Some ((load_users w).1 !! k) -> (load_users w).2 = w.
Proof.
  intros [v Hk].
  destruct (load_users_cases w) as [H | [[msg H] | (t & _ & _ & _ & H)]];
    [exact H | rewrite H in Hk; simpl in Hk; rewrite lookup_empty in Hk; discriminate ..].
Qed.

Lemma load_users_save_calls w : save_calls (load_users w).2 = save_calls w.
Proof.
  destruct (load_users_cases w) as [H | [[msg H] | (t & _ & _ & _ & H)]];
    rewrite H; [reflexivity | |];
    unfold save_calls; simpl; rewrite List.filter_app; simpl;
    rewrite app_nil_r; reflexivity.
Qed.

Lemma load_users_storage_ok w :
  storage_ok w = true -> storage_ok (load_users w).2 = true.
Proof.
  destruct (load_users_cases w) as [H | [[msg H] | (t & _ & _ & _ & H)]];
    rewrite H; [auto | auto |].
  unfold storage_ok, is_dir. simpl.
  rewrite lookup_insert_ne by exact corrupt_ne_tmp.
  rewrite lookup_delete_ne by (symmetry; exact tmp_ne_users).
  rewrite lookup_insert_ne by exact corrupt_ne_users.
  rewrite lookup_delete_eq.
  intros H1. apply andb_true_iff in H1 as [H1 _]. rewrite H1. reflexivity.
Qed.

(** [save_users] step by step: the open, the dump, the replace. *)
Lemma save_users_steps T w :
  save_users T w =
    let w0 := emit (SaveCalled T) w in
    let w1 := set_files (<[TMP_FILE := File (json_dump (PDict T))]> (files w)) w0 in
    if tmp_open_ok w then
      match json_dump_error (PDict T) with
      | Some _ => log_exception "Failed to save users.json" w1
      | None =>
          if writable w && negb (is_dir USERS_FILE w)
          then set_files (<[USERS_FILE := File (json_dump (PDict T))]>
                            (delete TMP_FILE (files w))) w0
          else log_exception "Failed to save users.json" w1
      end
    else log_exception "Failed to save users.json" w0.
Proof.
  unfold save_users, write_file, tmp_open_ok. fold TMP_FILE. simpl.
  assert (Hreplace :
    os_replace TMP_FILE USERS_FILE
      (set_files (<[TMP_FILE := File (json_dump (PDict T))]> (files w))
                 (emit (SaveCalled T) w))
    = if writable w && negb (is_dir USERS_FILE w)
      then inr (set_files (<[USERS_FILE := File (json_dump (PDict T))]>
                             (delete TMP_FILE (files w)))
                          (emit (SaveCalled T) w))
      else inl OSError).
  { unfold os_replace, os_rename, is_dir. simpl.
    rewrite lookup_insert_eq.
    rewrite lookup_insert_ne by exact tmp_ne_users.
    destruct (writable w && _); [| reflexivity].
    rewrite delete_insert_eq. reflexivity. }
  destruct (files w !! TMP_FILE) as [[t0|]|].
  - rewrite Hreplace. destruct (json_dump_error (PDict T)); [reflexivity |].
    destruct (writable w && _); reflexivity.
  - reflexivity.
  - destruct (writable w) eqn:Hw; [| reflexivity].
    rewrite Hreplace, ?Hw. destruct (json_dump_error (PDict T)); [reflexivity |].
    simpl. destruct (negb _); reflexivity.
Qed.

Lemma storage_ok_steps w :
  storage_ok w = tmp_open_ok w && (writable w && negb (is_dir USERS_FILE w)).
Proof.
  unfold storage_ok, tmp_open_ok, is_dir.
  destruct (files w !! TMP_FILE) as [[t0|]|], (writable w),
           (files w !! USERS_FILE) as [[t1|]|]; reflexivity.
Qed.

(** A save that goes through (the directory lets it, the dump does not
    raise) leaves the dumped table under the real name and no temporary
    file. *)
Lemma save_users_ok T w :
  storage_ok w = true ->
  json_dump_error (PDict T) = None ->
  save_users T w =
    set_files (<[USERS_FILE := File (json_dump (PDict T))]> (delete TMP_FILE (files w)))
              (emit (SaveCalled T) w).
Proof.
  rewrite storage_ok_steps, andb_true_iff. intros [Ht Hr] He.
  rewrite save_users_steps. simpl. rewrite Ht, He, Hr. reflexivity.
Qed.

(** A save that does not go through: the failure is logged, and at most
    the temporary file is new. *)
Lemma save_users_failed T w :
  storage_ok w = false \/ json_dump_error (PDict T) <> None ->
  exists fs,
    save_users T w
    = log_exception "Failed to save users.json"
        (set_files fs (emit (SaveCalled T) w))
    /\ (fs = files w \/ fs = <[TMP_FILE := File (json_dump (PDict T))]> (files w)).
Proof.
  rewrite storage_ok_steps. intros Hno. rewrite save_users_steps. simpl.
  destruct (tmp_open_ok w).
  - destruct (json_dump_error (PDict T)) as [e|].
    + eexists. split; [reflexivity | right; reflexivity].
    + destruct (writable w && negb (is_dir USERS_FILE w)).
      * exfalso. destruct Hno as [Hno | Hno]; [discriminate | contradiction Hno; reflexivity].
      * eexists. split; [reflexivity | right; reflexivity].
  - exists (files w). split; [| left; reflexivity].
    destruct w; reflexivity.
Qed.

(** A save that does not go through leaves the real file as it was. *)
Lemma save_users_kept T w :
  storage_ok w = false \/ json_dump_error (PDict T) <> None ->
  files (save_users T w) !! USERS_FILE = files w !! USERS_FILE.
Proof.
  intros Hno. destruct (save_users_failed T w Hno) as (fs & -> & [-> | ->]); simpl.
  - reflexivity.
  - apply lookup_insert_ne. exact tmp_ne_users.
Qed.

(** A save the directory refuses leaves the real file as it was. *)
Lemma save_users_refused T w :
  storage_ok w = false ->
  files (save_users T w) !! USERS_FILE = files w !! USERS_FILE.
Proof. intros Hno. apply save_users_kept. left. exact Hno. Qed.

Lemma save_users_save_calls T w : save_calls (save_users T w) = S (save_calls w).
Proof.
  assert (Hemit : save_calls (emit (SaveCalled T) w) = S (save_calls w)).
  { unfold save_calls. simpl. rewrite List.filter_app, List.length_app. simpl. lia. }
  assert (Hlog : forall msg w', save_calls (log_exception msg w') = save_calls w').
  { intros. unfold save_calls. simpl. rewrite List.filter_app. simpl.
    rewrite app_nil_r. reflexivity. }
  rewrite save_users_steps. simpl.
  destruct (tmp_open_ok w); [| rewrite Hlog; exact Hemit].
  destruct (json_dump_error (PDict T)); [rewrite Hlog; exact Hemit |].
  destruct (writable w && _); [exact Hemit | rewrite Hlog; exact Hemit].
Qed.

(** What [load_users] reads from a file that holds a dumped table. *)
Lemma load_users_dumped `{!LibrariesLaws L} T w :
  json_dump_error (PDict T) = None ->
  files w !! USERS_FILE = Some (File (json_dump (PDict T))) ->
  load_users w = (T, w).
Proof.
  intros He Hf. open_backing_file Hf. rewrite (json_load_dump _ He). reflexivity.
Qed.

(** [json.dump] raises on no user table: each record is two strings. *)
Lemma table_of_dumps `{!LibrariesLaws L} (T : gmap string UserRecord) :
  json_dump_error (PDict (table_of T)) = None.
Proof.
  unfold table_of. induction T as [|k u T Hk IH] using map_ind.
  - rewrite fmap_empty. apply json_dump_empty.
  - rewrite fmap_insert. apply json_dump_record. exact IH.
Qed.

(** [json.dump] raises on no table [load_users] returned. *)
Lemma load_users_dumps `{!LibrariesLaws L} w :
  json_dump_error (PDict (load_users w).1) = None.
Proof.
  unfold load_users.
  destruct (negb (path_exists USERS_FILE w)); [apply json_dump_empty |].
  destruct (open_read USERS_FILE w) as [e|t]; [apply json_dump_empty |].
  destruct (json_load t) as [[]|v] eqn:Hj; simpl;
    try apply json_dump_empty.
  - destruct (os_rename _ _ w); apply json_dump_empty.
  - destruct v; try apply json_dump_empty. exact (json_dump_loaded _ _ Hj).
Qed.

(** C2, amended: for every user table [T], its values records of
    strings, when the directory lets the save through ([storage_ok]: it
    is writable and neither [users.json.tmp] nor [users.json] is a
    directory), [save_users] of [T] followed by [load_users] returns [T]
    itself, field for field, and the load changes nothing. *)
Theorem save_then_load `{!LibrariesLaws L} (T : gmap string UserRecord) w :
  storage_ok w = true ->
  load_users (save_users (table_of T) w) = (table_of T, save_users (table_of T) w)
  /\ forall k, (load_users (save_users (table_of T) w)).1 !! k
               = (fun u => PDict {[ "password_hash" := PStr (password_hash u);
                                    "created_at" := PStr (created_at u) ]}) <$> T !! k.
Proof.
  intros Hok.
  assert (Hload : load_users (save_users (table_of T) w)
                  = (table_of T, save_users (table_of T) w)).
  { apply load_users_dumped; [apply table_of_dumps |].
    rewrite (save_users_ok _ w Hok (table_of_dumps T)). simpl.
    apply lookup_insert_eq. }
  split; [exact Hload |]. intros k. rewrite Hload. simpl.
  unfold table_of. rewrite lookup_fmap. reflexivity.
Qed.

End StoreProperties.

(** ** AccountService: registration *)

Section RegisterProperties.
Context {L : Libraries}.
Implicit Types (w : world L) (users : gmap string pyval) (body : option pyval).

Lemma py_or_str (s : string) : py_or (PStr s) (PStr "") = PStr s.
Proof.
  unfold py_or. simpl. destruct (String.eqb_spec s ""); simpl; congruence.
Qed.

Lemma truthy_valid_password (p : pyval) : is_valid_password p = true -> truthy p = true.
Proof.
  destruct p; simpl; try discriminate.
  destruct s; [discriminate | reflexivity].
Qed.

(** The credentials read from a body with both fields. *)
Lemma read_credentials_both (e : string) (p : pyval) :
  read_credentials (credentials e p) = inr (normalize e, py_or p (PStr "")).
Proof.
  unfold read_credentials, credentials. simpl.
  assert (Hne : py_or (PDict (<["email" := PStr e]> {["password" := p]})) (PDict ∅)
                = PDict (<["email" := PStr e]> {["password" := p]})).
  { unfold py_or. simpl. rewrite bool_decide_eq_false_2; [reflexivity |].
    apply insert_non_empty. }
  rewrite Hne. simpl.
  rewrite lookup_insert_eq. simpl. rewrite py_or_str. simpl.
  rewrite lookup_insert_ne by discriminate.
  rewrite lookup_singleton_eq. reflexivity.
Qed.

Lemma register_unhandled body salt now w e :
  read_credentials body = inl e ->
  register body salt now w = (Unhandled e, w).
Proof. intros H. unfold register. rewrite H. reflexivity. Qed.

Lemma register_invalid body salt now w email password :
  read_credentials body = inr (email, password) ->
  is_valid_email (PStr email) && is_valid_password password = false ->
  register body salt now w
  = (Respond (message "Invalid email or password (min length 6).") 400, w).
Proof.
  intros H Hv. unfold register. rewrite H.
  apply andb_false_iff in Hv as [-> | ->]; simpl; rewrite ?orb_true_r; reflexivity.
Qed.

Lemma register_duplicate body salt now w email password :
  read_credentials body = inr (email, password) ->
  is_valid_email (PStr email) && is_valid_password password = true ->
  is_Some ((load_users w).1 !! email) ->
  register body salt now w = (Respond (message "Email already exists") 409, w).
Proof.
  intros H Hv Hk. unfold register. rewrite H.
  apply andb_true_iff in Hv as [-> ->]. simpl.
  pose proof (load_users_entry w email Hk) as Hw.
  destruct (load_users w) as [users w']. simpl in *. subst w'.
  rewrite bool_decide_eq_true_2 by exact Hk. reflexivity.
Qed.

Lemma register_created body salt now w email password :
  read_credentials body = inr (email, password) ->
  is_valid_email (PStr email) && is_valid_password password = true ->
  (load_users w).1 !! email = None ->
  register body salt now w
  = (Respond (message "Account created successfully") 201,
     save_users
       (<[email := user_record (generate_password_hash (str_of password) salt)
                               (now +:+ "Z")]> (load_users w).1)
       (load_users w).2).
Proof.
  intros H Hv Hk. unfold register. rewrite H.
  apply andb_true_iff in Hv as [-> ->]. simpl.
  destruct (load_users w) as [users w']. simpl in *.
  rewrite bool_decide_eq_false_2; [reflexivity |].
  rewrite Hk. intros [? ?]. discriminate.
Qed.

(** C6: [register] calls [save_users] exactly once when it answers 201,
    and not at all otherwise (400, 409, or an exception): then the world,
    its files and so the stored table are what they were. It answers 201
    exactly when the credentials read from the request are valid and the
    normalized email is no key of the table. *)
Theorem register_save_calls body salt now w :
  (status_of (register body salt now w).1 = 201 ->
     save_calls (register body salt now w).2 = S (save_calls w))
  /\ (status_of (register body salt now w).1 <> 201 ->
        save_calls (register body salt now w).2 = save_calls w
        /\ files (register body salt now w).2 = files w
        /\ load_users (register body salt now w).2 = load_users w)
  /\ (status_of (register body salt now w).1 = 201 <->
        exists email password,
          read_credentials body = inr (email, password)
          /\ is_valid_email (PStr email) = true
          /\ is_valid_password password = true
          /\ (load_users w).1 !! email = None).
Proof.
  destruct (read_credentials body) as [e | [email password]] eqn:Hc.
  { rewrite (register_unhandled _ _ _ _ _ Hc). simpl.
    split; [discriminate |]. split; [auto |].
    split; [discriminate | intros (? & ? & H & _); discriminate H]. }
  destruct (is_valid_email (PStr email) && is_valid_password password) eqn:Hv.
  2: { rewrite (register_invalid _ _ _ _ _ _ Hc Hv). simpl.
       split; [discriminate |]. split; [auto |].
       split; [discriminate |].
       intros (email' & password' & [= <- <-] & He & Hp & _).
       assert (Hv' : is_valid_email (PStr email) && is_valid_password password = true)
         by (apply andb_true_iff; split; assumption).
       congruence. }
  pose proof Hv as Hv'. apply andb_true_iff in Hv' as [He Hp].
  destruct ((load_users w).1 !! email) as [v|] eqn:Hk.
  - rewrite (register_duplicate _ _ _ _ _ _ Hc Hv) by (rewrite Hk; eauto). simpl.
    split; [discriminate |]. split; [auto |].
    split; [discriminate |].
    intros (email' & password' & [= <- <-] & _ & _ & Hk'). congruence.
  - rewrite (register_created _ _ _ _ _ _ Hc Hv Hk). simpl.
    split; [intros _ | split; [intros H; contradiction H; reflexivity |]].
    + rewrite save_users_save_calls, load_users_save_calls. reflexivity.
    + split; [intros _ | reflexivity]. eauto 10.
Qed.


Lemma save_users_stored users w :
  storage_ok w = true ->
  json_dump_error (PDict users) = None ->
  files (save_users users w) !! USERS_FILE = Some (File (json_dump (PDict users))).
Proof.
  intros Hok He. rewrite (save_users_ok users w Hok He). simpl. apply lookup_insert_eq.
Qed.

(** [json.dump] raises on no table [register] saves: a table read from
    the store, and one record of two strings more. *)
Lemma new_table_dumps `{!LibrariesLaws L} w (email pw_hash created : string) :
  json_dump_error
    (PDict (<[email := user_record pw_hash created]> (load_users w).1)) = None.
Proof. apply json_dump_record, load_users_dumps. Qed.

(** The save of [register], when the directory lets it through: the new
    table is what the backing file holds and what is read back. *)
Lemma register_saved `{!LibrariesLaws L} w (email pw_hash created : string) :
  storage_ok w = true ->
  let users := <[email := user_record pw_hash created]> (load_users w).1 in
  files (save_users users (load_users w).2) !! USERS_FILE
  = Some (File (json_dump (PDict users)))
  /\ load_users (save_users users (load_users w).2)
     = (users, save_users users (load_users w).2).
Proof.
  intros Hok users.
  assert (Hfile : files (save_users users (load_users w).2) !! USERS_FILE
                  = Some (File (json_dump (PDict users)))).
  { apply save_users_stored; [apply load_users_storage_ok, Hok |].
    apply new_table_dumps. }
  split; [exact Hfile |].
  apply load_users_dumped; [apply new_table_dumps | exact Hfile].
Qed.

(** C1, amended: for every [e] whose normal form is a valid email and
    every valid password, [register] on a store in which that normal form
    is no key answers 201. When the directory then lets the save through
    ([storage_ok]), a following [register] with an email of the same
    normal form and any valid second password answers 409, "Email already
    exists", and changes nothing. *)
Theorem register_twice `{!LibrariesLaws L}
    (e e' p : string) (p' : pyval) (salt now salt' now' : string) w :
  is_valid_email (PStr (normalize e)) = true ->
  is_valid_password (PStr p) = true ->
  (load_users w).1 !! normalize e = None ->
  (register (credentials e (PStr p)) salt now w).1
  = Respond (message "Account created successfully") 201
  /\ (storage_ok w = true ->
      normalize e' = normalize e ->
      is_valid_password p' = true ->
      register (credentials e' p') salt' now'
               (register (credentials e (PStr p)) salt now w).2
      = (Respond (message "Email already exists") 409,
         (register (credentials e (PStr p)) salt now w).2)).
Proof.
  intros He Hp Hk.
  assert (Hc : read_credentials (credentials e (PStr p)) = inr (normalize e, PStr p)).
  { rewrite read_credentials_both, py_or_str. reflexivity. }
  assert (Hv : is_valid_email (PStr (normalize e)) && is_valid_password (PStr p) = true).
  { rewrite He, Hp. reflexivity. }
  rewrite (register_created _ salt now w _ _ Hc Hv Hk). simpl.
  split; [reflexivity |]. intros Hok Hsame Hp'.
  apply (register_duplicate _ _ _ _ (normalize e) p').
  - rewrite read_credentials_both, Hsame. unfold py_or.
    rewrite (truthy_valid_password _ Hp'). reflexivity.
  - rewrite He, Hp'. reflexivity.
  - destruct (register_saved w (normalize e) (generate_password_hash p salt)
                              (now +:+ "Z") Hok) as [_ Hload].
    simpl in Hload. rewrite Hload.
    simpl. rewrite lookup_insert_eq. eauto.
Qed.

(** C3, amended: when the backing file exists and [json.load] rejects its
    text as no JSON, [load_users] returns the empty table; the file is
    moved to the [.corrupt] name when the directory lets it
    ([quarantine_ok]) and stays where it is otherwise. A following
    [register] with valid credentials answers 201, and when the directory
    lets the save through ([storage_ok]) the backing file it leaves holds
    the dump of the table with just the new record, which [load_users]
    reads back. *)
Theorem corrupt_file_recovery `{!LibrariesLaws L} w (t : text) :
  files w !! USERS_FILE = Some (File t) ->
  json_load t = inl JSONDecodeError ->
  (load_users w).1 = ∅
  /\ (quarantine_ok w = true ->
      files (load_users w).2 = <[CORRUPT_FILE := File t]> (delete USERS_FILE (files w)))
  /\ (quarantine_ok w = false -> files (load_users w).2 = files w)
  /\ (forall (e p salt now : string),
        is_valid_email (PStr (normalize e)) = true ->
        is_valid_password (PStr p) = true ->
        let r := register (credentials e (PStr p)) salt now (load_users w).2 in
        let T : gmap string pyval :=
          {[ normalize e := user_record (generate_password_hash p salt) (now +:+ "Z") ]} in
        r.1 = Respond (message "Account created successfully") 201
        /\ (storage_ok w = true ->
            files r.2 !! USERS_FILE = Some (File (json_dump (PDict T)))
            /\ load_users r.2 = (T, r.2))).
Proof.
  intros Hf Hj.
  pose proof (load_users_corrupt w t Hf Hj) as Hload.
  assert (Hagain : (load_users (load_users w).2).1 = ∅).
  { destruct (quarantine_ok w) eqn:Hq; rewrite Hload; simpl.
    - rewrite load_users_no_path; [reflexivity |].
      apply path_exists_false. simpl.
      rewrite lookup_insert_ne by exact corrupt_ne_users. apply lookup_delete_eq.
    - rewrite (load_users_corrupt _ t) by assumption.
      destruct (quarantine_ok _); reflexivity. }
  split; [rewrite Hload; destruct (quarantine_ok w); reflexivity |].
  split; [intros Hq; rewrite Hload, Hq; reflexivity |].
  split; [intros Hq; rewrite Hload, Hq; reflexivity |].
  intros e p salt now He Hp r T.
  assert (Hr : r = (Respond (message "Account created successfully") 201,
                    save_users T (load_users (load_users w).2).2)).
  { unfold r. rewrite (register_created _ salt now _ (normalize e) (PStr p)).
    - simpl. rewrite Hagain, insert_empty. reflexivity.
    - rewrite read_credentials_both, py_or_str. reflexivity.
    - rewrite He, Hp. reflexivity.
    - rewrite Hagain. apply lookup_empty. }
  rewrite Hr. simpl. split; [reflexivity |]. intros Hok.
  assert (Hdump : json_dump_error (PDict T) = None).
  { unfold T. rewrite <- insert_empty. apply json_dump_record, json_dump_empty. }
  assert (Hfile : files (save_users T (load_users (load_users w).2).2) !! USERS_FILE
                  = Some (File (json_dump (PDict T)))).
  { apply save_users_stored; [| exact Hdump].
    do 2 apply load_users_storage_ok. exact Hok. }
  split; [exact Hfile | apply load_users_dumped; [exact Hdump | exact Hfile]].
Qed.

End RegisterProperties.

(** ** AccountService: login *)

Section LoginProperties.
Context {L : Libraries}.
Implicit Types (w : world L) (users r : gmap string pyval) (body : option pyval).

Lemma truthy_str (s : string) : truthy (PStr s) = true <-> s <> "".
Proof.
  simpl. destruct (String.eqb_spec s ""); simpl; split; congruence.
Qed.

(** The answer of [login] to a request whose email has no entry. *)
Lemma login_absent body w email password :
  read_credentials body = inr (email, password) ->
  email <> "" -> truthy password = true ->
  (load_users w).1 !! email = None ->
  (login body w).1 = Respond (message "Invalid email or password") 401.
Proof.
  intros Hc He Hp Hk. unfold login. rewrite Hc.
  apply truthy_str in He. rewrite He, Hp. simpl.
  destruct (load_users w) as [users w']. simpl in *. rewrite Hk. reflexivity.
Qed.

(** The answer of [login] when the entry is a record the password does
    not open. *)
Lemma login_wrong body w email password r :
  read_credentials body = inr (email, password) ->
  email <> "" -> truthy password = true ->
  (load_users w).1 !! email = Some (PDict r) ->
  wrong_password r password ->
  (login body w).1 = Respond (message "Invalid email or password") 401.
Proof.
  intros Hc He Hp Hk Hwrong. unfold login. rewrite Hc.
  apply truthy_str in He. rewrite He, Hp. simpl.
  destruct (load_users w) as [users w']. simpl in *. rewrite Hk. simpl.
  destruct (bool_decide (r = ∅)); simpl; [reflexivity |].
  destruct Hwrong as [Hfalsy | Hcheck].
  - rewrite Hfalsy. reflexivity.
  - destruct (truthy (default PNone (r !! "password_hash"))); simpl; [| reflexivity].
    rewrite Hcheck. reflexivity.
Qed.

(** C4, amended: for an email that is not empty once normalized and a
    password that is not empty, [login] with an email that has no entry
    in the table and [login] with an email whose entry the password does
    not open (the record has no usable hash, or [check_password_hash]
    answers [False] for it, as it does for a wrong password that is a
    string) give the identical answer: 401 with the message "Invalid
    email or password". The two cases are indistinguishable to the
    client. *)
Theorem login_indistinguishable
    (e1 e2 : string) (p1 p2 : pyval) (w1 w2 : world L) (r : gmap string pyval) :
  normalize e1 <> "" -> truthy p1 = true ->
  normalize e2 <> "" -> truthy p2 = true ->
  (load_users w1).1 !! normalize e1 = None ->
  (load_users w2).1 !! normalize e2 = Some (PDict r) ->
  wrong_password r p2 ->
  (login (credentials e1 p1) w1).1 = (login (credentials e2 p2) w2).1
  /\ (login (credentials e1 p1) w1).1
     = Respond (message "Invalid email or password") 401.
Proof.
  intros He1 Hp1 He2 Hp2 Habsent Hpresent Hwrong.
  assert (H1 : (login (credentials e1 p1) w1).1
               = Respond (message "Invalid email or password") 401).
  { apply (login_absent _ _ (normalize e1) p1); auto.
    rewrite read_credentials_both. unfold py_or. rewrite Hp1. reflexivity. }
  assert (H2 : (login (credentials e2 p2) w2).1
               = Respond (message "Invalid email or password") 401).
  { apply (login_wrong _ _ (normalize e2) p2 r); auto.
    rewrite read_credentials_both. unfold py_or. rewrite Hp2. reflexivity. }
  rewrite H1, H2. auto.
Qed.

(** The email read from a request is in normal form. *)
Lemma read_credentials_normal body email password :
  read_credentials body = inr (email, password) -> exists raw, email = normalize raw.
Proof.
  unfold read_credentials.
  destruct (py_get _ "email") as [e | x]; [discriminate |].
  destruct (py_or x (PStr "")) as [| | | | raw | |]; simpl; try discriminate.
  destruct (py_get _ "password"); [discriminate |].
  intros [= <- _]. exists raw. reflexivity.
Qed.

(** C7: a login that answers 200 answers with the message and, as user
    info, a dict of exactly two entries: the normalized email of the
    request and the [created_at] of the record stored for it. Neither the
    answer nor the user info has a [password_hash] entry. *)
Theorem login_success_payload body w (payload : pyval) (w' : world L) :
  login body w = (Respond payload 200, w') ->
  exists email password r info,
    read_credentials body = inr (email, password)
    /\ (exists raw, email = normalize raw)
    /\ (load_users w).1 !! email = Some (PDict r)
    /\ info = {[ "email" := PStr email;
                 "created_at" := default PNone (r !! "created_at") ]}
    /\ payload = PDict {[ "message" := PStr "Login successful";
                          "user" := PDict info ]}
    /\ dom info = {[ "email"; "created_at" ]}
    /\ info !! "password_hash" = None.
Proof.
  unfold login. intros H.
  destruct (read_credentials body) as [e | [email password]] eqn:Hc; [discriminate |].
  destruct (negb (truthy (PStr email)) || negb (truthy password)); [discriminate |].
  destruct (load_users w) as [users w1] eqn:Hl. simpl.
  destruct (users !! email) as [user|] eqn:Hk; simpl in H; [| discriminate].
  destruct (truthy user); simpl in H; [| discriminate].
  destruct user as [| | | | | | r]; simpl in H; try discriminate.
  destruct (truthy (default PNone (r !! "password_hash"))); simpl in H; [| discriminate].
  destruct (check_password_hash _ _) as [e | [|]]; try discriminate.
  injection H as <- <-.
  eexists email, password, r, _.
  split; [reflexivity |]. split; [exact (read_credentials_normal _ _ _ Hc) |].
  split; [exact Hk |]. split; [reflexivity |].
  split; [reflexivity |]. split; [| reflexivity].
  rewrite dom_insert_L, dom_singleton_L. reflexivity.
Qed.

End LoginProperties.

(* ===================================================================== *)
(** * The program on concrete worlds *)
(* ===================================================================== *)

(** A dict holds an int that is too long exactly when a value does. *)
Lemma too_long_dict (d : gmap string pyval) :
  Ref.too_long (PDict d) = false
  <-> map_Forall (fun _ x => Ref.too_long x = false) d.
Proof.
  cbn [Ref.too_long].
  induction d as [|k x d Hk Hfold IH] using map_first_key_ind.
  - rewrite map_fold_empty. split; [intros _; apply map_Forall_empty | reflexivity].
  - rewrite map_fold_insert_first_key by assumption.
    rewrite orb_false_iff, map_Forall_insert by assumption. rewrite IH. tauto.
Qed.

Lemma ref_dump_error_none (v : pyval) :
  Ref.dump_error v = None <-> Ref.too_long v = false.
Proof. unfold Ref.dump_error. destruct (Ref.too_long v); split; congruence. Qed.

Lemma ref_laws : LibrariesLaws Ref.libraries.
Proof.
  split; simpl.
  - intros v Hv. apply ref_dump_error_none in Hv.
    unfold Ref.dump, Ref.load. rewrite Hv. simpl. rewrite Hv. reflexivity.
  - intros t v Ht. apply ref_dump_error_none.
    destruct t as [v0| |]; simpl in Ht; try discriminate.
    destruct (Ref.too_long v0) eqn:Hv0; [discriminate |]. congruence.
  - reflexivity.
  - intros d k pw_hash created_at Hd.
    apply ref_dump_error_none, too_long_dict.
    apply ref_dump_error_none, too_long_dict in Hd.
    apply map_Forall_insert_2; [| exact Hd].
    apply too_long_dict. apply map_Forall_insert_2; [reflexivity |].
    apply map_Forall_singleton. reflexivity.
Qed.

Section Scenarios.
Existing Instance Ref.libraries.
Existing Instance ref_laws.

Example normalize_scenario : normalize "A@B.com " = "a@b.com".
Proof. reflexivity. Qed.

Example register_scenario :
  let first := register (credentials "a@b.com" (PStr "secret1")) "NaCl"
                        "2024-01-01T00:00:00" (empty_dir true) in
  status_of first.1 = 201
  /\ load_users first.2 = (one_user, first.2)
  /\ status_of (register (credentials "A@B.com " (PStr "anything")) "KCl"
                         "2024-01-01T00:00:01" first.2).1 = 409
  /\ status_of (login (credentials "a@b.com" (PStr "wrong")) first.2).1 = 401
  /\ status_of (login (credentials "a@b.com" (PStr "secret1")) first.2).1 = 200.
Proof.
  repeat split;
    match goal with |- ?a = _ => vm_cast_no_check (@eq_refl _ a) end.
Qed.

(** *** UserStore *)

Lemma load_users_missing_witness :
  files (empty_dir true) !! USERS_FILE = None
  /\ load_users (empty_dir true) = (∅, empty_dir true).
Proof.
  split; [reflexivity |]. apply load_users_missing. reflexivity.
Defined.

Lemma load_users_not_object_witness :
  let w := dir_with (Ref.Document (PList [PInt 1; PInt 2])) true in
  load_users w = (∅, w)
  /\ files w !! USERS_FILE = Some (File (Ref.Document (PList [PInt 1; PInt 2])))
  /\ files w !! CORRUPT_FILE = None.
Proof.
  intros w. split; [| split; reflexivity].
  apply (load_users_not_object w (Ref.Document (PList [PInt 1; PInt 2]))
                               (PList [PInt 1; PInt 2])).
  - reflexivity.
  - reflexivity.
  - intros d. discriminate.
Defined.

Lemma save_then_load_witness :
  storage_ok (empty_dir true) = true
  /\ table_of one_user_table = one_user
  /\ load_users (save_users (table_of one_user_table) (empty_dir true))
     = (table_of one_user_table, save_users (table_of one_user_table) (empty_dir true)).
Proof.
  split; [reflexivity |]. split; [reflexivity |].
  apply (save_then_load one_user_table (empty_dir true)). reflexivity.
Defined.

(** C2 as stated fails: in a directory that is not writable
    [save_users] logs its failure and [load_users] finds no file, for a
    user table whose values are strings. *)
Lemma save_then_load_counterexample :
  (load_users (save_users (table_of one_user_table) (empty_dir false))).1 = ∅
  /\ (load_users (save_users (table_of one_user_table) (empty_dir false))).1
     <> table_of one_user_table.
Proof.
  split; [reflexivity |].
  intros H. apply (f_equal (fun m : gmap string pyval => m !! "a@b.com")) in H.
  vm_compute in H. discriminate H.
Defined.

(** *** Registration *)

Lemma register_twice_witness :
  let first := register (credentials "a@b.com" (PStr "secret1")) "NaCl"
                        "2024-01-01T00:00:00" (empty_dir true) in
  first.1 = Respond (message "Account created successfully") 201
  /\ register (credentials "A@B.com " (PStr "anything")) "KCl"
              "2024-01-01T00:00:01" first.2
     = (Respond (message "Email already exists") 409, first.2).
Proof.
  intros first.
  destruct (register_twice "a@b.com" "A@B.com " "secret1" (PStr "anything")
              "NaCl" "2024-01-01T00:00:00" "KCl" "2024-01-01T00:00:01"
              (empty_dir true))
    as [Hfirst Hsecond]; [reflexivity | reflexivity | reflexivity |].
  split; [exact Hfirst |].
  apply Hsecond; reflexivity.
Defined.

(** C1 as stated fails in three ways. With an email that is no valid one
    the first call answers 400. After a first call that answers 201, a
    second call with a password shorter than 6 answers 400, not 409: the
    credentials are checked before the table is read. And in a directory
    that is not writable the first call answers 201 without storing
    anything, so the second call answers 201 again. *)
Lemma register_twice_counterexample :
  (load_users (empty_dir true)).1 !! normalize "abc" = None
  /\ status_of (register (credentials "abc" (PStr "secret1")) "NaCl"
                         "2024-01-01T00:00:00" (empty_dir true)).1 = 400
  /\ (let first := register (credentials "a@b.com" (PStr "secret1")) "NaCl"
                            "2024-01-01T00:00:00" (empty_dir true) in
      status_of first.1 = 201
      /\ normalize "A@B.com " = normalize "a@b.com"
      /\ status_of (register (credentials "A@B.com " (PStr "short")) "KCl"
                             "2024-01-01T00:00:01" first.2).1 = 400)
  /\ (let first := register (credentials "a@b.com" (PStr "secret1")) "NaCl"
                            "2024-01-01T00:00:00" (empty_dir false) in
      status_of first.1 = 201
      /\ status_of (register (credentials "a@b.com" (PStr "secret2")) "KCl"
                             "2024-01-01T00:00:01" first.2).1 = 201).
Proof. vm_compute. repeat split; reflexivity. Defined.

Lemma register_save_calls_witness :
  let out := register (credentials "a@b.com" (PStr "secret1")) "NaCl"
                      "2024-01-01T00:00:00" (empty_dir true) in
  status_of out.1 = 201
  /\ save_calls (empty_dir true) = 0%nat
  /\ save_calls out.2 = 1%nat
  /\ files out.2 !! USERS_FILE = Some (File (Ref.Document (PDict one_user))).
Proof.
  intros out.
  destruct (register_save_calls (credentials "a@b.com" (PStr "secret1")) "NaCl"
              "2024-01-01T00:00:00" (empty_dir true))
    as (Hcalled & _ & Hcreated).
  assert (Hstatus : status_of out.1 = 201).
  { apply Hcreated. exists "a@b.com", (PStr "secret1"). repeat split; reflexivity. }
  split; [exact Hstatus |]. split; [reflexivity |].
  split; [exact (Hcalled Hstatus) | reflexivity].
Defined.



(** *** Recovery from a corrupt file *)

Lemma corrupt_file_recovery_witness :
  let w := dir_with (Ref.NotJson "not json") true in
  let r := register (credentials "a@b.com" (PStr "secret1")) "NaCl"
                    "2024-01-01T00:00:00" (load_users w).2 in
  (load_users w).1 = ∅
  /\ files (load_users w).2 !! USERS_FILE = None
  /\ files (load_users w).2 !! CORRUPT_FILE = Some (File (Ref.NotJson "not json"))
  /\ r.1 = Respond (message "Account created successfully") 201
  /\ files r.2 !! USERS_FILE = Some (File (Ref.Document (PDict one_user)))
  /\ load_users r.2 = (one_user, r.2).
Proof.
  intros w r.
  destruct (corrupt_file_recovery w (Ref.NotJson "not json"))
    as (Hempty & Hmoved & _ & Hregister); [reflexivity | reflexivity |].
  destruct (Hregister "a@b.com" "secret1" "NaCl" "2024-01-01T00:00:00")
    as [Hcreated Hfresh]; [reflexivity | reflexivity |].
  destruct Hfresh as [Hfile Hload]; [reflexivity |].
  split; [exact Hempty |].
  split; [rewrite Hmoved by reflexivity; reflexivity |].
  split; [rewrite Hmoved by reflexivity; reflexivity |].
  split; [exact Hcreated |].
  split; [exact Hfile | exact Hload].
Defined.

(** C3 as stated fails in two ways. In a directory that is not writable
    the file that is no JSON stays under its name, nothing appears under
    the [.corrupt] name, and the [register] that follows answers 201 but
    leaves the old file. And a file whose bytes are no UTF-8 is not
    renamed even in a writable directory: [json.load] raises
    [UnicodeDecodeError], which is not a [JSONDecodeError]. *)
Lemma corrupt_file_recovery_counterexample :
  (let w := dir_with (Ref.NotJson "not json") false in
   let r := register (credentials "a@b.com" (PStr "secret1")) "NaCl"
                     "2024-01-01T00:00:00" (load_users w).2 in
   (load_users w).1 = ∅
   /\ files (load_users w).2 !! USERS_FILE = Some (File (Ref.NotJson "not json"))
   /\ files (load_users w).2 !! CORRUPT_FILE = None
   /\ status_of r.1 = 201
   /\ files r.2 !! USERS_FILE = Some (File (Ref.NotJson "not json")))
  /\ (let w := dir_with Ref.NotUtf8 true in
      (load_users w).1 = ∅
      /\ files (load_users w).2 !! USERS_FILE = Some (File Ref.NotUtf8)
      /\ files (load_users w).2 !! CORRUPT_FILE = None).
Proof. vm_compute. repeat split; reflexivity. Defined.

(** *** Login *)

Lemma login_indistinguishable_witness :
  let w := dir_with (Ref.Document (PDict one_user)) true in
  (login (credentials "x@y.org" (PStr "secret1")) w).1
  = (login (credentials "A@B.com " (PStr "wrong")) w).1
  /\ (login (credentials "x@y.org" (PStr "secret1")) w).1
     = Respond (message "Invalid email or password") 401.
Proof.
  intros w.
  apply (login_indistinguishable "x@y.org" "A@B.com " (PStr "secret1") (PStr "wrong")
           w w
           {[ "password_hash" := PStr (Ref.generate "secret1" "NaCl");
              "created_at" := PStr "2024-01-01T00:00:00Z" ]});
    try discriminate; try reflexivity.
  right. reflexivity.
Defined.

(** C4 as stated fails in two ways. An email of white space only is not
    the empty string and has no entry, yet [login] normalizes it to the
    empty string and answers 400, "Email and password required", while a
    wrong password for an existing account is answered 401. And a
    password that is not empty and not a string (the JSON number 12345)
    tells the two cases apart: with an email that has no entry the answer
    is 401, with the email of an account the hash check raises
    [AttributeError] and the answer is a 500. *)
Lemma login_indistinguishable_counterexample :
  let w := dir_with (Ref.Document (PDict one_user)) true in
  (" " <> ""
   /\ (load_users w).1 !! normalize " " = None
   /\ (login (credentials " " (PStr "secret1")) w).1
      = Respond (message "Email and password required") 400
   /\ (login (credentials "a@b.com" (PStr "wrong")) w).1
      = Respond (message "Invalid email or password") 401)
  /\ (truthy (PInt 12345) = true
      /\ (load_users w).1 !! normalize "x@y.org" = None
      /\ is_Some ((load_users w).1 !! normalize "a@b.com")
      /\ (login (credentials "x@y.org" (PInt 12345)) w).1
         = Respond (message "Invalid email or password") 401
      /\ (login (credentials "a@b.com" (PInt 12345)) w).1
         = Unhandled AttributeError
      /\ status_of (login (credentials "a@b.com" (PInt 12345)) w).1 = 500).
Proof.
  intros w. split.
  - split; [discriminate |]. vm_compute. repeat split; reflexivity.
  - split; [reflexivity |]. split; [reflexivity |].
    split; [vm_compute; eauto |]. vm_compute. repeat split; reflexivity.
Defined.

Lemma login_success_payload_witness :
  let w := dir_with (Ref.Document (PDict one_user)) true in
  exists payload,
    login (credentials "A@B.com " (PStr "secret1")) w = (Respond payload 200, w)
    /\ payload = PDict {[ "message" := PStr "Login successful";
                          "user" := PDict {[ "email" := PStr "a@b.com";
                                             "created_at" := PStr "2024-01-01T00:00:00Z" ]} ]}.
Proof.
  intros w.
  assert (Hlogin : {payload | login (credentials "A@B.com " (PStr "secret1")) w
                              = (Respond payload 200, w)}).
  { eexists. vm_compute. reflexivity. }
  destruct Hlogin as [payload Hlogin]. exists payload. split; [exact Hlogin |].
  destruct (login_success_payload _ _ _ _ Hlogin)
    as (email & password & r & info & Hc & _ & Hk & Hinfo & Hpayload & _).
  rewrite Hpayload, Hinfo.
  vm_compute in Hc. injection Hc as <- <-.
  vm_compute in Hk. injection Hk as <-.
  reflexivity.
Defined.

End Scenarios.

(* ===================================================================== *)
(** * Further properties of the store *)
(* ===================================================================== *)

Section MoreStoreProperties.
Context {L : Libraries}.
Implicit Types (w : world L) (T users : gmap string pyval).

(** The table and the files [load_users] leaves depend on the files and
    on the permission of the directory, not on what was logged. *)
Lemma load_users_ext w1 w2 :
  files w1 = files w2 -> writable w1 = writable w2 ->
  (load_users w1).1 = (load_users w2).1
  /\ files (load_users w1).2 = files (load_users w2).2.
Proof.
  destruct w1 as [f1 rw1 tr1], w2 as [f2 rw2 tr2]. simpl.
  intros <- <-. unfold load_users, path_exists, open_read, os_rename, is_dir. simpl.
  destruct (f1 !! USERS_FILE) as [[t|]|]; simpl; auto.
  destruct (json_load t) as [[]|v]; simpl; auto.
  destruct (rw1 && _); simpl; auto.
Qed.

(** The table [load_users] returns is the one the entry of the backing
    file stands for. *)
Lemma load_users_table w : (load_users w).1 = stored_table (files w !! USERS_FILE).
Proof.
  unfold load_users, path_exists, open_read, os_rename, stored_table.
  destruct (files w !! USERS_FILE) as [[t|]|]; simpl; auto.
  destruct (json_load t) as [[]|v]; simpl; auto.
  match goal with |- context [if ?b then _ else _] => destruct b end; reflexivity.
Qed.

Lemma load_users_again w : (load_users (load_users w).2).1 = (load_users w).1.
Proof.
  destruct (load_users_cases w) as [H | [[msg H] | (t & _ & _ & _ & H)]].
  - rewrite !H. reflexivity.
  - rewrite !load_users_table, H. reflexivity.
  - rewrite H. simpl. rewrite load_users_no_path; [reflexivity |].
    apply path_exists_false. simpl.
    rewrite lookup_insert_ne by exact corrupt_ne_users. apply lookup_delete_eq.
Qed.

(** X1: loading twice: the second call returns the table of the first and
    changes no file. *)
Theorem load_users_idempotent w :
  (load_users (load_users w).2).1 = (load_users w).1
  /\ files (load_users (load_users w).2).2 = files (load_users w).2.
Proof.
  split; [apply load_users_again |].
  destruct (load_users_cases w) as [H | [[msg H] | (t & _ & _ & _ & H)]].
  - rewrite !H. reflexivity.
  - rewrite H. simpl.
    destruct (load_users_ext (log_exception msg w) w eq_refl eq_refl) as [_ Hf].
    rewrite Hf, H. reflexivity.
  - rewrite H. simpl. rewrite load_users_no_path; [reflexivity |].
    apply path_exists_false. simpl.
    rewrite lookup_insert_ne by exact corrupt_ne_users. apply lookup_delete_eq.
Qed.

(** X2: [load_users] reads nothing but the entry of the backing file: two
    worlds that agree on it give the same table, whatever else they hold
    or have logged. *)
Theorem load_users_reads_backing_file_only w1 w2 :
  files w1 !! USERS_FILE = files w2 !! USERS_FILE ->
  (load_users w1).1 = (load_users w2).1.
Proof.
  intros H. rewrite !load_users_table. rewrite H. reflexivity.
Qed.

Lemma load_users_storage_same w : storage_ok (load_users w).2 = storage_ok w.
Proof.
  destruct (load_users_cases w) as [H | [[msg H] | (t & Hf & _ & _ & H)]];
    rewrite H; [reflexivity | reflexivity |].
  unfold storage_ok, is_dir. simpl.
  rewrite lookup_insert_ne by exact corrupt_ne_tmp.
  rewrite lookup_delete_ne by (symmetry; exact tmp_ne_users).
  rewrite lookup_insert_ne by exact corrupt_ne_users.
  rewrite lookup_delete_eq, Hf. reflexivity.
Qed.

(** X3: the frame of [load_users]: apart from the backing file and the
    [.corrupt] name no entry changes, the permission of the directory
    stays, and [save_users] is not called. *)
Theorem load_users_frame w :
  delete CORRUPT_FILE (delete USERS_FILE (files (load_users w).2))
  = delete CORRUPT_FILE (delete USERS_FILE (files w))
  /\ writable (load_users w).2 = writable w
  /\ save_calls (load_users w).2 = save_calls w.
Proof.
  split; [| split; [| apply load_users_save_calls]];
    destruct (load_users_cases w) as [H | [[msg H] | (t & _ & _ & _ & H)]];
    rewrite H; try reflexivity.
  simpl. rewrite delete_insert_ne by discriminate.
  rewrite delete_delete_eq, delete_insert_eq. reflexivity.
Qed.

Ltac read_backing_file Hf :=
  unfold load_users; rewrite (path_exists_true _ _ _ Hf); simpl;
  unfold open_read; rewrite Hf.

(** X4: a backing file that cannot be read as text (a directory under its
    name, or bytes [json.load] rejects with another exception than
    [JSONDecodeError]) gives the empty table; the entry stays as it is
    and the failure is logged. *)
Theorem load_users_unreadable w :
  files w !! USERS_FILE = Some Dir
  \/ (exists (t : text) e,
        files w !! USERS_FILE = Some (File t)
        /\ json_load t = inl e /\ e <> JSONDecodeError) ->
  load_users w = (∅, log_exception "Failed to load users.json" w).
Proof.
  intros [Hf | (t & e & Hf & Hj & He)].
  - read_backing_file Hf. reflexivity.
  - read_backing_file Hf. rewrite Hj. destruct e; try reflexivity.
    contradiction He. reflexivity.
Qed.

Lemma save_users_failure_logged T w :
  storage_ok w = false ->
  exists tr, trace (save_users T w)
             = (tr ++ [Logged ERROR "Failed to save users.json"])%list.
Proof.
  intros Hno. destruct (save_users_failed T w (or_introl Hno)) as (fs & -> & _).
  simpl. eauto.
Qed.

Lemma save_goes_through_cases T w :
  (storage_ok w && dump_ok (PDict T) = true
   /\ storage_ok w = true /\ json_dump_error (PDict T) = None)
  \/ (storage_ok w && dump_ok (PDict T) = false
      /\ (storage_ok w = false \/ json_dump_error (PDict T) <> None)).
Proof.
  unfold dump_ok. destruct (storage_ok w), (json_dump_error (PDict T)); simpl.
  - right. split; [reflexivity | right; discriminate].
  - left. auto.
  - right. auto.
  - right. auto.
Qed.

(** X5: [save_users] is all or nothing on the backing file, and says so in
    the log: when the directory lets the save through and [json.dump]
    does not raise on the table, the file holds the dump of the table and
    nothing is logged; otherwise (the directory refuses, or the dump
    raises) the entry of the backing file is what it was and one record
    at level ERROR is logged. Nothing is raised either way. *)
Theorem save_users_all_or_nothing T w :
  files (save_users T w) !! USERS_FILE
  = (if storage_ok w && dump_ok (PDict T)
     then Some (File (json_dump (PDict T)))
     else files w !! USERS_FILE)
  /\ trace (save_users T w)
     = (trace w ++ SaveCalled T ::
          (if storage_ok w && dump_ok (PDict T)
           then [] else [Logged ERROR "Failed to save users.json"]))%list.
Proof.
  destruct (save_goes_through_cases T w) as [(-> & Hok & He) | (-> & Hno)].
  - rewrite (save_users_ok T w Hok He). simpl. split; [apply lookup_insert_eq |].
    reflexivity.
  - destruct (save_users_failed T w Hno) as (fs & -> & [-> | ->]); simpl.
    + split; [reflexivity |]. rewrite <- app_assoc. reflexivity.
    + split; [apply lookup_insert_ne; exact tmp_ne_users |].
      rewrite <- app_assoc. reflexivity.
Qed.

(** X6: the frame of [save_users]: apart from the backing file and the
    temporary file no entry changes, and the permission of the directory
    stays. After a save that went through (the directory lets it, the
    dump does not raise) no temporary file is left; after a dump that
    raised, the temporary file holds what the dump had written. *)
Theorem save_users_frame T w :
  delete TMP_FILE (delete USERS_FILE (files (save_users T w)))
  = delete TMP_FILE (delete USERS_FILE (files w))
  /\ writable (save_users T w) = writable w
  /\ (storage_ok w = true -> dump_ok (PDict T) = true ->
      files (save_users T w) !! TMP_FILE = None)
  /\ (tmp_open_ok w = true -> dump_ok (PDict T) = false ->
      files (save_users T w) !! TMP_FILE = Some (File (json_dump (PDict T)))).
Proof.
  split; [| split; [| split]].
  - destruct (save_goes_through_cases T w) as [(_ & Hok & He) | (_ & Hno)].
    + rewrite (save_users_ok T w Hok He). simpl.
      apply map_eq. intros k.
      rewrite !lookup_delete, lookup_insert, !lookup_delete.
      repeat case_decide; congruence.
    + destruct (save_users_failed T w Hno) as (fs & -> & [-> | ->]); simpl;
        [reflexivity |].
      rewrite delete_insert_ne by (symmetry; exact tmp_ne_users).
      rewrite delete_insert_eq. reflexivity.
  - destruct (save_goes_through_cases T w) as [(_ & Hok & He) | (_ & Hno)].
    + rewrite (save_users_ok T w Hok He). reflexivity.
    + destruct (save_users_failed T w Hno) as (fs & -> & _). reflexivity.
  - intros Hok Hd. unfold dump_ok in Hd.
    destruct (json_dump_error (PDict T)) eqn:He; [discriminate |].
    rewrite (save_users_ok T w Hok He). simpl.
    rewrite lookup_insert_ne by (symmetry; exact tmp_ne_users).
    apply lookup_delete_eq.
  - intros Hopen Hd. unfold dump_ok in Hd. rewrite save_users_steps. simpl.
    rewrite Hopen. destruct (json_dump_error (PDict T)); [| discriminate].
    simpl. apply lookup_insert_eq.
Qed.

End MoreStoreProperties.

(* ===================================================================== *)
(** * Further properties of the normal form of an email *)
(* ===================================================================== *)

Lemma lower_char_idem (c : ascii) :
  PyStr.lower_char (PyStr.lower_char c) = PyStr.lower_char c.
Proof. destruct c as [[] [] [] [] [] [] [] []]; reflexivity. Qed.

Lemma isspace_lower_char (c : ascii) :
  PyStr.isspace (PyStr.lower_char c) = PyStr.isspace c.
Proof. destruct c as [[] [] [] [] [] [] [] []]; reflexivity. Qed.

Lemma lower_idem (s : string) : PyStr.lower (PyStr.lower s) = PyStr.lower s.
Proof.
  induction s as [|c s IH]; simpl; [reflexivity |].
  rewrite lower_char_idem, IH. reflexivity.
Qed.

Lemma lstrip_lower (s : string) :
  PyStr.lstrip (PyStr.lower s) = PyStr.lower (PyStr.lstrip s).
Proof.
  induction s as [|c s IH]; simpl; [reflexivity |].
  rewrite isspace_lower_char. destruct (PyStr.isspace c); [exact IH | reflexivity].
Qed.

Lemma rstrip_lower (s : string) :
  PyStr.rstrip (PyStr.lower s) = PyStr.lower (PyStr.rstrip s).
Proof.
  induction s as [|c s IH]; simpl; [reflexivity |].
  rewrite IH, isspace_lower_char.
  destruct (PyStr.rstrip s); simpl; [destruct (PyStr.isspace c) |]; reflexivity.
Qed.

Lemma rstrip_idem (s : string) : PyStr.rstrip (PyStr.rstrip s) = PyStr.rstrip s.
Proof.
  induction s as [|c s IH]; simpl; [reflexivity |].
  destruct (PyStr.rstrip s) as [|c' r] eqn:Hr.
  - destruct (PyStr.isspace c) eqn:Hc; simpl; [reflexivity |].
    rewrite Hc. reflexivity.
  - cbn [PyStr.rstrip]. cbn [PyStr.rstrip] in IH. rewrite IH. reflexivity.
Qed.

Lemma lstrip_no_space_ahead (s : string) : no_space_ahead (PyStr.lstrip s).
Proof.
  induction s as [|c s IH]; simpl; [exact I |].
  destruct (PyStr.isspace c) eqn:Hc; [exact IH | exact Hc].
Qed.

Lemma rstrip_no_space_ahead (s : string) :
  no_space_ahead s -> no_space_ahead (PyStr.rstrip s).
Proof.
  destruct s as [|c s]; simpl; [auto |]. intros Hc.
  destruct (PyStr.rstrip s); [rewrite Hc |]; exact Hc.
Qed.

Lemma lstrip_fixed (s : string) : no_space_ahead s -> PyStr.lstrip s = s.
Proof. destruct s as [|c s]; simpl; [auto |]. intros ->. reflexivity. Qed.

Lemma strip_idem (s : string) : PyStr.strip (PyStr.strip s) = PyStr.strip s.
Proof.
  unfold PyStr.strip.
  rewrite (lstrip_fixed (PyStr.rstrip (PyStr.lstrip s))).
  - apply rstrip_idem.
  - apply rstrip_no_space_ahead, lstrip_no_space_ahead.
Qed.

Lemma strip_lower (s : string) :
  PyStr.strip (PyStr.lower s) = PyStr.lower (PyStr.strip s).
Proof. unfold PyStr.strip. rewrite lstrip_lower, rstrip_lower. reflexivity. Qed.

Lemma normalize_fixed (s : string) : normalize (normalize s) = normalize s.
Proof.
  unfold normalize. rewrite strip_lower, strip_idem, lower_idem. reflexivity.
Qed.

(** X7: normalizing is idempotent: the key [register] stores is its own
    normal form, so the email it was stored under finds it again. *)
Theorem normalize_idempotent (s : string) :
  normalize (normalize s) = normalize s
  /\ no_space_ahead (normalize s)
  /\ PyStr.rstrip (normalize s) = normalize s.
Proof.
  split; [apply normalize_fixed |]. unfold normalize. split.
  - rewrite <- strip_lower. unfold PyStr.strip.
    apply rstrip_no_space_ahead, lstrip_no_space_ahead.
  - rewrite <- strip_lower. unfold PyStr.strip. apply rstrip_idem.
Qed.

Lemma lstrip_all_space (l s : string) :
  all_space l = true -> PyStr.lstrip (l +:+ s) = PyStr.lstrip s.
Proof.
  induction l as [|c l IH]; [reflexivity |].
  cbn [all_space]. intros H. apply andb_true_iff in H as [Hc Hl].
  rewrite append_cons. cbn [PyStr.lstrip]. rewrite Hc. auto.
Qed.

Lemma lstrip_spaces (r : string) : all_space r = true -> PyStr.lstrip r = "".
Proof.
  induction r as [|c r IH]; simpl; [reflexivity |].
  intros H. apply andb_true_iff in H as [Hc Hr]. rewrite Hc. auto.
Qed.

Lemma rstrip_all_space (r : string) : all_space r = true -> PyStr.rstrip r = "".
Proof.
  induction r as [|c r IH]; simpl; [reflexivity |].
  intros H. apply andb_true_iff in H as [Hc Hr].
  rewrite (IH Hr), Hc. reflexivity.
Qed.

Lemma rstrip_padding (s r : string) :
  all_space r = true -> PyStr.rstrip (s +:+ r) = PyStr.rstrip s.
Proof.
  intros Hr. induction s as [|c s IH].
  - apply rstrip_all_space. exact Hr.
  - rewrite append_cons. cbn [PyStr.rstrip]. rewrite IH. reflexivity.
Qed.

Lemma strip_right_padding (s r : string) :
  all_space r = true -> PyStr.strip (s +:+ r) = PyStr.strip s.
Proof.
  intros Hr. unfold PyStr.strip. induction s as [|c s IH].
  - change ("" +:+ r) with r. rewrite (lstrip_spaces r Hr). reflexivity.
  - rewrite append_cons. cbn [PyStr.lstrip]. destruct (PyStr.isspace c); [exact IH |].
    rewrite <- append_cons. apply rstrip_padding. exact Hr.
Qed.

Lemma normalize_padding (l s r : string) :
  all_space l = true -> all_space r = true ->
  normalize (l +:+ s +:+ r) = normalize s.
Proof.
  intros Hl Hr. unfold normalize. f_equal.
  unfold PyStr.strip at 1. rewrite (lstrip_all_space l _ Hl).
  apply (strip_right_padding s r Hr).
Qed.

(* ===================================================================== *)
(** * Further properties of registration and login *)
(* ===================================================================== *)

Section MoreAccountProperties.
Context {L : Libraries}.
Implicit Types (w : world L) (users r : gmap string pyval) (body : option pyval).

(** The two routes see a request through [read_credentials] only. *)
Lemma register_ext body1 body2 salt now w :
  read_credentials body1 = read_credentials body2 ->
  register body1 salt now w = register body2 salt now w.
Proof. intros H. unfold register. rewrite H. reflexivity. Qed.

Lemma login_ext body1 body2 w :
  read_credentials body1 = read_credentials body2 ->
  login body1 w = login body2 w.
Proof. intros H. unfold login. rewrite H. reflexivity. Qed.

(** X8: white space around an email and the case of its letters do not
    count: two requests whose emails differ in these only are answered
    alike by [register] and by [login], in every world. *)
Theorem requests_modulo_space_and_case
    (l e e' r : string) (p : pyval) (salt now : string) w :
  all_space l = true -> all_space r = true ->
  PyStr.lower e = PyStr.lower e' ->
  register (credentials (l +:+ e +:+ r) p) salt now w
  = register (credentials e' p) salt now w
  /\ login (credentials (l +:+ e +:+ r) p) w = login (credentials e' p) w.
Proof.
  intros Hl Hr Hcase.
  assert (Hn : normalize (l +:+ e +:+ r) = normalize e').
  { rewrite (normalize_padding l e r Hl Hr). unfold normalize.
    rewrite <- !strip_lower, Hcase. reflexivity. }
  split; [apply register_ext | apply login_ext];
    rewrite !read_credentials_both, Hn; reflexivity.
Qed.

(** A save the directory refuses leaves the table as it was. *)
Lemma save_refused_table users w :
  storage_ok w = false ->
  (load_users (save_users users w)).1 = (load_users w).1.
Proof.
  intros Hno. rewrite !load_users_table, (save_users_refused users w Hno).
  reflexivity.
Qed.

(** X9: a registration that answers 201 in a directory that lets the save
    through stores exactly one more record: the table read back is the
    old table with the new record under the normalized email, every
    other entry as it was. *)
Theorem register_stores `{!LibrariesLaws L} body salt now w email password :
  read_credentials body = inr (email, password) ->
  is_valid_email (PStr email) && is_valid_password password = true ->
  (load_users w).1 !! email = None ->
  storage_ok w = true ->
  load_users (register body salt now w).2
  = (<[email := user_record (generate_password_hash (str_of password) salt)
                            (now +:+ "Z")]> (load_users w).1,
     (register body salt now w).2).
Proof.
  intros Hc Hv Hk Hok.
  rewrite (register_created _ salt now w _ _ Hc Hv Hk). simpl.
  apply register_saved. exact Hok.
Qed.

(** X10: a registration in a directory that refuses the save still answers
    201: the failure is only logged, and the table read back afterwards
    is the old one, without the new account. *)
Theorem register_unsaved body salt now w email password :
  read_credentials body = inr (email, password) ->
  is_valid_email (PStr email) && is_valid_password password = true ->
  (load_users w).1 !! email = None ->
  storage_ok w = false ->
  (register body salt now w).1 = Respond (message "Account created successfully") 201
  /\ (load_users (register body salt now w).2).1 = (load_users w).1
  /\ (exists tr, trace (register body salt now w).2
                 = (tr ++ [Logged ERROR "Failed to save users.json"])%list).
Proof.
  intros Hc Hv Hk Hno.
  rewrite (register_created _ salt now w _ _ Hc Hv Hk). simpl.
  assert (Hno' : storage_ok (load_users w).2 = false)
    by (rewrite load_users_storage_same; exact Hno).
  split; [reflexivity |]. split.
  - rewrite (save_refused_table _ _ Hno'). apply load_users_again.
  - apply save_users_failure_logged. exact Hno'.
Qed.

(** X11: what the status of [register] tells the client. 201: the credentials
    were valid and the normalized email was no key of the table. 409:
    they were valid and the email was a key; nothing changed. 400: they
    were not valid; the store was not read and nothing changed. No other
    status is answered unless the request is ill-typed (500). *)
Theorem register_status_sound body salt now w :
  let out := register body salt now w in
  (status_of out.1 = 201 ->
     exists email password,
       read_credentials body = inr (email, password)
       /\ is_valid_email (PStr email) = true
       /\ is_valid_password password = true
       /\ (load_users w).1 !! email = None)
  /\ (status_of out.1 = 409 ->
       out.2 = w
       /\ exists email password,
            read_credentials body = inr (email, password)
            /\ is_valid_email (PStr email) = true
            /\ is_valid_password password = true
            /\ is_Some ((load_users w).1 !! email))
  /\ (status_of out.1 = 400 ->
       out.2 = w
       /\ exists email password,
            read_credentials body = inr (email, password)
            /\ is_valid_email (PStr email) && is_valid_password password = false)
  /\ (status_of out.1 = 201 \/ status_of out.1 = 409
      \/ status_of out.1 = 400 \/ status_of out.1 = 500).
Proof.
  intros out. subst out.
  destruct (read_credentials body) as [e | [email password]] eqn:Hc.
  { rewrite (register_unhandled _ _ _ _ _ Hc). simpl.
    repeat split; try discriminate. auto. }
  destruct (is_valid_email (PStr email) && is_valid_password password) eqn:Hv.
  2: { rewrite (register_invalid _ _ _ _ _ _ Hc Hv). simpl.
       repeat split; try discriminate; eauto. }
  pose proof Hv as Hv'. apply andb_true_iff in Hv' as [He Hp].
  destruct ((load_users w).1 !! email) as [v|] eqn:Hk.
  - rewrite (register_duplicate _ _ _ _ _ _ Hc Hv) by (rewrite Hk; eauto). simpl.
    repeat split; try discriminate; eauto 10.
  - rewrite (register_created _ _ _ _ _ _ Hc Hv Hk). simpl.
    repeat split; try discriminate; eauto 10.
Qed.

Lemma keys_ok_insert users k v :
  keys_ok users -> is_valid_email (PStr k) = true -> normalize k = k ->
  keys_ok (<[k := v]> users).
Proof.
  intros Hok Hk Hn k' [v' Hv'].
  destruct (decide (k = k')) as [<- | Hne]; [auto |].
  rewrite lookup_insert_ne in Hv' by exact Hne. eauto.
Qed.

(** X12: [register] keeps the invariant of the table: when every key read
    from the store is a valid email in normal form, the same holds of the
    table read after the call, whatever the request and whether or not
    the save went through. *)
Theorem register_keeps_keys_ok `{!LibrariesLaws L} body salt now w :
  keys_ok (load_users w).1 ->
  keys_ok (load_users (register body salt now w).2).1.
Proof.
  intros Hok.
  destruct (read_credentials body) as [e | [email password]] eqn:Hc.
  { rewrite (register_unhandled _ _ _ _ _ Hc). exact Hok. }
  destruct (is_valid_email (PStr email) && is_valid_password password) eqn:Hv.
  2: { rewrite (register_invalid _ _ _ _ _ _ Hc Hv). exact Hok. }
  destruct ((load_users w).1 !! email) as [v|] eqn:Hk.
  { rewrite (register_duplicate _ _ _ _ _ _ Hc Hv) by (rewrite Hk; eauto).
    exact Hok. }
  rewrite (register_created _ _ _ _ _ _ Hc Hv Hk). simpl.
  destruct (storage_ok w) eqn:Hs.
  - rewrite (proj2 (register_saved w email _ _ Hs)). simpl.
    apply keys_ok_insert; [exact Hok | |].
    + apply andb_true_iff in Hv as [He _]. exact He.
    + destruct (read_credentials_normal _ _ _ Hc) as [raw ->].
      apply normalize_fixed.
  - rewrite save_refused_table by (rewrite load_users_storage_same; exact Hs).
    rewrite load_users_again. exact Hok.
Qed.

(** When [read_credentials] raises. *)
Lemma py_or_falsy (v alt : pyval) : truthy v = false -> py_or v alt = alt.
Proof. unfold py_or. intros ->. reflexivity. Qed.

Lemma py_or_truthy (v alt : pyval) : truthy v = true -> py_or v alt = v.
Proof. unfold py_or. intros ->. reflexivity. Qed.

Lemma read_credentials_of_dict (d : gmap string pyval) (e : exn) :
  match py_get (PDict d) "email" with
  | inl e => inl e
  | inr x =>
      match py_strip_lower (py_or x (PStr "")) with
      | inl e => inl e
      | inr email =>
          match py_get (PDict d) "password" with
          | inl e => inl e
          | inr y => inr (email, py_or y (PStr ""))
          end
      end
  end = inl e
  <-> e = AttributeError
      /\ exists x, d !! "email" = Some x /\ truthy x = true /\ forall s, x <> PStr s.
Proof.
  simpl. destruct (d !! "email") as [x|] eqn:Hx; simpl.
  - destruct (truthy x) eqn:Ht.
    + rewrite (py_or_truthy _ _ Ht).
      destruct x as [| b | n | f | s | l | d0]; simpl;
        try (split; [intros [= <-]; split; [reflexivity |];
                     eexists; split; [reflexivity |]; split; [exact Ht |];
                     intros ?; discriminate
                    | intros [-> _]; reflexivity]).
      split; [discriminate |].
      intros [_ (x & [= <-] & _ & Hns)]. contradiction (Hns s). reflexivity.
    + rewrite (py_or_falsy _ _ Ht). simpl. split; [discriminate |].
      intros [_ (x' & [= <-] & Ht' & _)]. congruence.
  - split; [discriminate |]. intros [_ (x & H & _)]. discriminate H.
Qed.

Lemma read_credentials_raises body e :
  read_credentials body = inl e <-> e = AttributeError /\ ill_typed_body body.
Proof.
  unfold read_credentials.
  destruct (truthy (default PNone body)) eqn:Ht.
  - rewrite (py_or_truthy _ _ Ht).
    destruct body as [v|]; simpl in *; [| discriminate].
    destruct v as [| b | n | f | s | l | d];
      try (simpl; split; [intros [= <-]; auto | intros [-> _]; reflexivity]).
    apply read_credentials_of_dict.
  - rewrite (py_or_falsy _ _ Ht).
    split; [discriminate |]. intros [_ Hill].
    destruct body as [v|]; simpl in *; [| contradiction].
    destruct v as [| b | n | f | s | l | d]; try congruence.
    destruct Hill as (x & Hx & _).
    simpl in Ht. apply negb_false_iff, bool_decide_eq_true in Ht. subst d.
    rewrite lookup_empty in Hx. discriminate.
Qed.

(** X13: an ill-typed request (a JSON body that is a true value but no
    object, or an email field that is a true value but no string) is not
    answered 400: both routes raise [AttributeError] before they read the
    store, and [register] raises in no other case. *)
Theorem ill_typed_request body salt now w :
  (forall e, (register body salt now w).1 = Unhandled e
             <-> e = AttributeError /\ ill_typed_body body)
  /\ (ill_typed_body body ->
      register body salt now w = (Unhandled AttributeError, w)
      /\ login body w = (Unhandled AttributeError, w)).
Proof.
  split.
  - intros e. rewrite <- read_credentials_raises.
    destruct (read_credentials body) as [e' | [email password]] eqn:Hc.
    + rewrite (register_unhandled _ _ _ _ _ Hc). simpl. split; congruence.
    + split; [| discriminate]. unfold register. rewrite Hc.
      destruct (_ || _); [discriminate |].
      destruct (load_users w) as [users w1].
      destruct (bool_decide _); discriminate.
  - intros Hill.
    assert (Hc : read_credentials body = inl AttributeError)
      by (apply read_credentials_raises; auto).
    split; [apply register_unhandled, Hc |].
    unfold login. rewrite Hc. reflexivity.
Qed.

End MoreAccountProperties.

Section MoreLoginProperties.
Context {L : Libraries}.
Implicit Types (w : world L) (users r : gmap string pyval) (body : option pyval).

(** The answer of [login] to the right password. *)
Lemma login_accepted body w email password r h :
  read_credentials body = inr (email, password) ->
  email <> "" -> truthy password = true ->
  (load_users w).1 !! email = Some (PDict r) ->
  r !! "password_hash" = Some h -> truthy h = true ->
  check_password_hash h password = inr true ->
  login body w
  = (Respond (PDict {[ "message" := PStr "Login successful";
                       "user" := PDict {[ "email" := PStr email;
                                          "created_at" := default PNone (r !! "created_at") ]} ]})
             200, w).
Proof.
  intros Hc He Hp Hk Hh Ht Hcheck. unfold login. rewrite Hc.
  apply truthy_str in He. rewrite He, Hp. simpl.
  assert (Hw : (load_users w).2 = w) by (apply (load_users_entry w email); eauto).
  destruct (load_users w) as [users w']. simpl in *. subst w'. rewrite Hk. simpl.
  assert (Hne : bool_decide (r = ∅) = false).
  { apply bool_decide_eq_false. intros ->. rewrite lookup_empty in Hh. discriminate. }
  rewrite Hne, Hh. simpl. rewrite Ht, Hcheck. reflexivity.
Qed.

(** X14: registration and login compose: after a registration that answers
    201 in a directory that lets the save through, a login with an email
    of the same normal form and the same password answers 200 with the
    normalized email and the stored time of creation, provided the hash
    library accepts the hash it has just generated. *)
Theorem register_then_login `{!LibrariesLaws L}
    (e e' p salt now : string) w :
  is_valid_email (PStr (normalize e)) = true ->
  is_valid_password (PStr p) = true ->
  (load_users w).1 !! normalize e = None ->
  storage_ok w = true ->
  normalize e' = normalize e ->
  generate_password_hash p salt <> "" ->
  check_password_hash (PStr (generate_password_hash p salt)) (PStr p) = inr true ->
  let w' := (register (credentials e (PStr p)) salt now w).2 in
  login (credentials e' (PStr p)) w'
  = (Respond (PDict {[ "message" := PStr "Login successful";
                       "user" := PDict {[ "email" := PStr (normalize e);
                                          "created_at" := PStr (now +:+ "Z") ]} ]})
             200, w').
Proof.
  intros He Hp Hk Hok Hsame Hne Hcheck w'.
  assert (Hc : read_credentials (credentials e (PStr p)) = inr (normalize e, PStr p)).
  { rewrite read_credentials_both, py_or_str. reflexivity. }
  assert (Hv : is_valid_email (PStr (normalize e)) && is_valid_password (PStr p) = true).
  { rewrite He, Hp. reflexivity. }
  assert (Hload : load_users w'
                  = (<[normalize e := user_record (generate_password_hash p salt)
                                                  (now +:+ "Z")]> (load_users w).1, w')).
  { unfold w'. rewrite (register_created _ salt now w _ _ Hc Hv Hk). simpl.
    apply register_saved. exact Hok. }
  rewrite (login_accepted _ w' (normalize e) (PStr p)
             {[ "password_hash" := PStr (generate_password_hash p salt);
                "created_at" := PStr (now +:+ "Z") ]}
             (PStr (generate_password_hash p salt))).
  - reflexivity.
  - rewrite read_credentials_both, py_or_str, Hsame. reflexivity.
  - intros Hempty. rewrite Hempty in He. discriminate He.
  - apply truthy_valid_password. exact Hp.
  - rewrite Hload. simpl. apply lookup_insert_eq.
  - reflexivity.
  - apply truthy_str. exact Hne.
  - exact Hcheck.
Qed.

(** X15: [login] never writes the table: it does not call [save_users], and
    the world it leaves is the one it found or the one [load_users]
    leaves (a corrupt file moved aside, a failure logged). *)
Theorem login_read_only body w :
  save_calls (login body w).2 = save_calls w
  /\ ((login body w).2 = w \/ (login body w).2 = (load_users w).2).
Proof.
  assert (Hworld : (login body w).2 = w \/ (login body w).2 = (load_users w).2).
  { unfold login.
    destruct (read_credentials body) as [e | [email password]]; [auto |].
    destruct (_ || _); [auto |].
    destruct (load_users w) as [users w1]. simpl.
    destruct (negb (truthy _)); [auto |].
    destruct (py_get _ "password_hash") as [e | h]; [auto |].
    destruct (negb (truthy h)); [auto |].
    destruct (check_password_hash h password) as [e | []]; [auto | | auto].
    destruct (py_get _ "created_at"); auto. }
  split; [| exact Hworld].
  destruct Hworld as [-> | ->]; [reflexivity | apply load_users_save_calls].
Qed.

(** X16: a login is answered 200 only after the hash check: the email has an
    entry that is a record with a usable [password_hash], and
    [check_password_hash] returned [True] for that hash and the password
    of the request. The store is not changed. *)
Theorem login_success_checked body w (payload : pyval) (w' : world L) :
  login body w = (Respond payload 200, w') ->
  w' = w
  /\ exists email password r h,
       read_credentials body = inr (email, password)
       /\ email <> "" /\ truthy password = true
       /\ (load_users w).1 !! email = Some (PDict r)
       /\ r !! "password_hash" = Some h /\ truthy h = true
       /\ check_password_hash h password = inr true.
Proof.
  unfold login. intros H.
  destruct (read_credentials body) as [e | [email password]] eqn:Hc; [discriminate |].
  destruct (truthy (PStr email)) eqn:He; [| discriminate].
  destruct (truthy password) eqn:Hp; [| discriminate]. simpl in H.
  pose proof (load_users_entry w email) as Hsame.
  destruct (load_users w) as [users w1] eqn:Hl. simpl in *.
  destruct (users !! email) as [user|] eqn:Hk; simpl in H; [| discriminate].
  destruct (truthy user); simpl in H; [| discriminate].
  destruct user as [| | | | | | r]; simpl in H; try discriminate.
  destruct (r !! "password_hash") as [h|] eqn:Hh; simpl in H; [| discriminate].
  destruct (truthy h) eqn:Ht; simpl in H; [| discriminate].
  destruct (check_password_hash h password) as [e | []] eqn:Hcheck; try discriminate.
  injection H as _ <-.
  split; [apply Hsame; eauto |].
  exists email, password, r, h. repeat split; auto.
  apply truthy_str. exact He.
Qed.

(** X17: a stored entry that is no record makes [login] raise: when the email
    of the request is the key of a true value that is not an object
    (a string, a number, a list), [login] raises [AttributeError] instead
    of answering 401. *)
Theorem login_malformed_record (e p : string) w (v : pyval) :
  normalize e <> "" -> p <> "" ->
  (load_users w).1 !! normalize e = Some v ->
  truthy v = true -> (forall r, v <> PDict r) ->
  login (credentials e (PStr p)) w = (Unhandled AttributeError, w).
Proof.
  intros He Hp Hk Ht Hv. unfold login.
  rewrite read_credentials_both, py_or_str.
  apply truthy_str in He, Hp. rewrite He, Hp. simpl.
  assert (Hw : (load_users w).2 = w) by (apply (load_users_entry w (normalize e)); eauto).
  destruct (load_users w) as [users w1]. simpl in *. subst w1.
  rewrite Hk. simpl. rewrite Ht. simpl.
  destruct v; try reflexivity. contradiction (Hv d). reflexivity.
Qed.

End MoreLoginProperties.

(* ===================================================================== *)
(** * Properties of the entry point *)
(* ===================================================================== *)

(** ** [int] on the numerals ["%d"] prints *)

Lemma more_digits_numeral (u : Decimal.uint) :
  PyInt.more_digits (NilEmpty.string_of_uint u) = (u, "").
Proof.
  induction u as [| u IH | u IH | u IH | u IH | u IH | u IH | u IH | u IH | u IH | u IH];
    [reflexivity | ..];
    cbn [NilEmpty.string_of_uint PyInt.more_digits]; simpl PyInt.digit;
    rewrite IH; reflexivity.
Qed.

Lemma length_numeral (u : Decimal.uint) :
  String.length (NilEmpty.string_of_uint u) = Decimal.nb_digits u.
Proof. induction u; simpl; congruence. Qed.

(** Evaluate the tests of [int] on the characters that stand in the goal. *)
Ltac eval_chars :=
  repeat match goal with
    | |- context [PyInt.isspace (Ascii ?a ?b ?c ?d ?e ?f ?g ?h)] =>
        let v := eval vm_compute in (PyInt.isspace (Ascii a b c d e f g h)) in
        change (PyInt.isspace (Ascii a b c d e f g h)) with v
    | |- context [PyInt.digit (Ascii ?a ?b ?c ?d ?e ?f ?g ?h)] =>
        let v := eval vm_compute in (PyInt.digit (Ascii a b c d e f g h)) in
        change (PyInt.digit (Ascii a b c d e f g h)) with v
    | |- context [Ascii.eqb (Ascii ?a ?b ?c ?d ?e ?f ?g ?h) ?k] =>
        let v := eval vm_compute in (Ascii.eqb (Ascii a b c d e f g h) k) in
        change (Ascii.eqb (Ascii a b c d e f g h) k) with v
    end.

Lemma int_numeral (u : Decimal.uint) :
  u <> Decimal.Nil ->
  (Decimal.nb_digits u <= PyInt.max_str_digits)%nat ->
  PyInt.int (NilEmpty.string_of_uint u) = inr (Z.of_N (N.of_uint u))
  /\ PyInt.magnitude (NilEmpty.string_of_uint u) = inr (Z.of_N (N.of_uint u)).
Proof.
  intros Hnil Hlen.
  assert (Hlt : (PyInt.max_str_digits <? Decimal.nb_digits u)%nat = false)
    by (apply Nat.ltb_ge; exact Hlen).
  destruct u; [contradiction Hnil; reflexivity | ..];
    unfold PyInt.int, PyInt.magnitude;
    cbn [NilEmpty.string_of_uint PyInt.skip_space]; eval_chars; cbv iota;
    eval_chars; cbv iota;
    rewrite more_digits_numeral; cbn [PyInt.skip_space];
    rewrite Hlt; auto.
Qed.

Lemma int_fmt_d (n : Z) :
  (String.length (PyInt.fmt_d n) <= PyInt.max_str_digits)%nat ->
  PyInt.int (PyInt.fmt_d n) = inr n.
Proof.
  unfold PyInt.fmt_d. destruct n as [| p | p]; simpl Z.to_int.
  - intros _. reflexivity.
  - cbn [NilEmpty.string_of_int]. rewrite length_numeral. intros Hlen.
    destruct (int_numeral (Pos.to_uint p)) as [-> _];
      [apply DecimalPos.Unsigned.to_uint_nonnil | exact Hlen |].
    unfold N.of_uint. rewrite DecimalPos.Unsigned.of_to. reflexivity.
  - cbn [NilEmpty.string_of_int String.length]. rewrite length_numeral. intros Hlen.
    unfold PyInt.int. cbn [PyInt.skip_space]. eval_chars. cbv iota.
    destruct (int_numeral (Pos.to_uint p)) as [_ ->];
      [apply DecimalPos.Unsigned.to_uint_nonnil | lia |].
    unfold N.of_uint. rewrite DecimalPos.Unsigned.of_to. reflexivity.
Qed.

(** ** [int] on a text with a foreign character *)

Lemma foreign_no_digit c : PyInt.foreign c = true -> PyInt.digit c = None.
Proof. unfold PyInt.foreign. destruct (PyInt.digit c); [discriminate | reflexivity]. Qed.

Lemma foreign_no_space c : PyInt.foreign c = true -> PyInt.isspace c = false.
Proof.
  unfold PyInt.foreign. destruct (PyInt.digit c); [discriminate |].
  rewrite negb_true_iff, !orb_false_iff. tauto.
Qed.

Lemma foreign_no_sign c :
  PyInt.foreign c = true ->
  Ascii.eqb c "_" = false /\ Ascii.eqb c "+" = false /\ Ascii.eqb c "-" = false.
Proof.
  unfold PyInt.foreign. destruct (PyInt.digit c); [discriminate |].
  rewrite negb_true_iff, !orb_false_iff. tauto.
Qed.

Lemma skip_space_foreign s :
  PyInt.has_foreign s = true ->
  exists c s', PyInt.skip_space s = String c s'
               /\ PyInt.has_foreign (String c s') = true.
Proof.
  induction s as [|c s IH]; simpl; [discriminate |].
  intros H. destruct (PyInt.isspace c) eqn:Hc.
  - apply IH. destruct (PyInt.foreign c) eqn:Hf; [| exact H].
    rewrite (foreign_no_space c Hf) in Hc. discriminate.
  - exists c, s. auto.
Qed.

(** One step of [more_digits], from what holds one and two characters
    further on. *)
Lemma more_digits_foreign_step c s :
  (PyInt.has_foreign s = true -> PyInt.has_foreign (PyInt.more_digits s).2 = true) ->
  match s with
  | String _ s'' =>
      PyInt.has_foreign s'' = true ->
      PyInt.has_foreign (PyInt.more_digits s'').2 = true
  | EmptyString => True
  end ->
  PyInt.has_foreign (String c s) = true ->
  PyInt.has_foreign (PyInt.more_digits (String c s)).2 = true.
Proof.
  intros Hs Hs2 H. cbn [PyInt.more_digits].
  destruct (PyInt.digit c) as [d|] eqn:Hd.
  - destruct (PyInt.more_digits s) as [ds rest] eqn:Hm. simpl.
    cbn [PyInt.has_foreign] in H.
    assert (Hc : PyInt.foreign c = false)
      by (unfold PyInt.foreign; rewrite Hd; reflexivity).
    rewrite Hc in H. simpl in H. specialize (Hs H). rewrite ?Hm in Hs. exact Hs.
  - destruct (Ascii.eqb c "_") eqn:Hu; [| exact H].
    destruct s as [|c2 s'']; [exact H |].
    destruct (PyInt.digit c2) as [d|] eqn:Hd2; [| exact H].
    destruct (PyInt.more_digits s'') as [ds rest] eqn:Hm. simpl.
    cbn [PyInt.has_foreign] in H.
    assert (Hc : PyInt.foreign c = false).
    { unfold PyInt.foreign. rewrite Hd, Hu. reflexivity. }
    assert (Hc2 : PyInt.foreign c2 = false)
      by (unfold PyInt.foreign; rewrite Hd2; reflexivity).
    rewrite Hc, Hc2 in H. simpl in H. specialize (Hs2 H). rewrite ?Hm in Hs2.
    exact Hs2.
Qed.

Lemma more_digits_foreign_pair s :
  (PyInt.has_foreign s = true ->
   PyInt.has_foreign (PyInt.more_digits s).2 = true)
  /\ (forall c, PyInt.has_foreign (String c s) = true ->
                PyInt.has_foreign (PyInt.more_digits (String c s)).2 = true).
Proof.
  induction s as [|a t [IHt IHat]].
  - split; [discriminate |]. intros c.
    apply more_digits_foreign_step; [discriminate | exact I].
  - split; [apply IHat |]. intros c.
    apply more_digits_foreign_step; [apply IHat | exact IHt].
Qed.

Lemma magnitude_foreign s :
  PyInt.has_foreign s = true -> PyInt.magnitude s = inl ValueError.
Proof.
  destruct s as [|c s]; [reflexivity |]. intros H. unfold PyInt.magnitude.
  destruct (PyInt.digit c) as [d|] eqn:Hd; [| reflexivity].
  assert (Hc : PyInt.foreign c = false)
    by (unfold PyInt.foreign; rewrite Hd; reflexivity).
  cbn [PyInt.has_foreign] in H. rewrite Hc in H. simpl in H.
  pose proof (proj1 (more_digits_foreign_pair s) H) as Hrest.
  destruct (PyInt.more_digits s) as [ds rest]. simpl in Hrest.
  destruct (skip_space_foreign rest Hrest) as (c' & s' & -> & _). reflexivity.
Qed.

(** [int] raises [ValueError] on every text that holds a character other
    than a digit, an underscore, a sign and white space, and on the empty
    text. *)
Lemma int_foreign s :
  s = "" \/ PyInt.has_foreign s = true -> PyInt.int s = inl ValueError.
Proof.
  intros [-> | H]; [reflexivity |]. unfold PyInt.int.
  destruct (skip_space_foreign s H) as (c & s' & -> & Hc).
  cbn [PyInt.has_foreign] in Hc.
  destruct (PyInt.foreign c) eqn:Hf.
  - destruct (foreign_no_sign c Hf) as (_ & -> & ->).
    unfold PyInt.magnitude. rewrite (foreign_no_digit c Hf). reflexivity.
  - simpl in Hc. rewrite (magnitude_foreign s' Hc).
    destruct (Ascii.eqb c "-"); [reflexivity |].
    destruct (Ascii.eqb c "+"); [reflexivity |].
    apply magnitude_foreign. cbn [PyInt.has_foreign]. rewrite Hf. exact Hc.
Qed.

(** ** [main] *)

(** X18: a numeral on the command line wins: when the PORT variable is
    absent or a text [int] accepts, [main] with the decimal numeral of
    any integer [n] as first argument (of at most 4300 characters) logs
    one record at level INFO and calls [app.run] on 127.0.0.1 with port
    [n], in debug mode; the value of PORT is not used and [n] is not
    checked against the range of ports. *)
Theorem main_numeric_argument
    (environ : gmap string string) (prog : string) (rest : list string) (n d : Z) :
  PyInt.int (default "5000" (environ !! "PORT")) = inr d ->
  (String.length (PyInt.fmt_d n) <= PyInt.max_str_digits)%nat ->
  main environ (prog :: PyInt.fmt_d n :: rest)
  = Run [("INFO", "Starting Study Tracker Backend on http://127.0.0.1:"
                  +:+ PyInt.fmt_d n)]
        "127.0.0.1" n true.
Proof.
  intros Henv Hlen. unfold main. rewrite Henv, (int_fmt_d n Hlen). reflexivity.
Qed.

(** X19: an argument that is no number does not stop the server: when the
    first argument is empty or holds a character other than a digit, an
    underscore, a sign and white space, [main] logs a warning that names
    the default port and calls [app.run] with the default, the value of
    PORT (5000 when the variable is absent). *)
Theorem main_bad_argument
    (environ : gmap string string) (prog a : string) (rest : list string) (d : Z) :
  PyInt.int (default "5000" (environ !! "PORT")) = inr d ->
  a = "" \/ PyInt.has_foreign a = true ->
  main environ (prog :: a :: rest)
  = Run [("WARNING", "Invalid port arg, using default " +:+ PyInt.fmt_d d);
         ("INFO", "Starting Study Tracker Backend on http://127.0.0.1:"
                  +:+ PyInt.fmt_d d)]
        "127.0.0.1" d true.
Proof.
  intros Henv Ha. unfold main. rewrite Henv, (int_foreign a Ha). reflexivity.
Qed.

(** X20: a PORT variable that is no number stops the script: its value is
    parsed first and outside the [try], so when it is empty or holds a
    character other than a digit, an underscore, a sign and white space,
    [main] raises [ValueError] for every command line, a valid port
    argument included, and [app.run] is not called. *)
Theorem main_bad_port_variable
    (environ : gmap string string) (v : string) (argv : list string) :
  environ !! "PORT" = Some v ->
  v = "" \/ PyInt.has_foreign v = true ->
  main environ argv = Raised ValueError.
Proof.
  intros Hv Hbad. unfold main. rewrite Hv. simpl.
  rewrite (int_foreign v Hbad). reflexivity.
Qed.

(* ===================================================================== *)
(** * The further properties on concrete worlds *)
(* ===================================================================== *)

Section MoreScenarios.
Existing Instance Ref.libraries.
Existing Instance ref_laws.

Lemma load_users_reads_backing_file_only_witness :
  let w1 := dir_with (Ref.Document (PDict one_user)) true in
  let w2 := log_warning "noise"
              (set_files (<[TMP_FILE := File (Ref.NotJson "half")]> (files w1))
                         (dir_with (Ref.Document (PDict one_user)) false)) in
  (load_users w1).1 = (load_users w2).1 /\ (load_users w1).1 = one_user.
Proof.
  intros w1 w2. split; [| reflexivity].
  apply (load_users_reads_backing_file_only w1 w2). reflexivity.
Defined.

(** A table [json.dump] raises on, in a directory that lets the save
    through: the backing file keeps the old table, the failure is logged,
    and the temporary file is left with the beginning of the dump. *)
Lemma save_users_all_or_nothing_witness :
  let T : gmap string pyval := {[ "a@b.com" := PInt (10 ^ 4300) ]} in
  let w := dir_with (Ref.Document (PDict one_user)) true in
  storage_ok w = true
  /\ dump_ok (PDict T) = false
  /\ files (save_users T w) !! USERS_FILE = Some (File (Ref.Document (PDict one_user)))
  /\ trace (save_users T w) = [SaveCalled T; Logged ERROR "Failed to save users.json"]
  /\ files (save_users one_user (empty_dir true)) !! USERS_FILE
     = Some (File (Ref.Document (PDict one_user)))
  /\ trace (save_users one_user (empty_dir true)) = [SaveCalled one_user].
Proof.
  intros T w.
  destruct (save_users_all_or_nothing T w) as [Hfile Htrace].
  destruct (save_users_all_or_nothing one_user (empty_dir true)) as [Hfile' Htrace'].
  split; [reflexivity |]. split; [vm_compute; reflexivity |].
  split; [rewrite Hfile; vm_compute; reflexivity |].
  split; [rewrite Htrace; vm_compute; reflexivity |].
  split; [rewrite Hfile'; reflexivity | rewrite Htrace'; reflexivity].
Defined.

Lemma save_users_frame_witness :
  let T : gmap string pyval := {[ "a@b.com" := PInt (10 ^ 4300) ]} in
  let w := dir_with (Ref.Document (PDict one_user)) true in
  tmp_open_ok w = true
  /\ dump_ok (PDict T) = false
  /\ files (save_users T w) !! TMP_FILE = Some (File (Ref.NotJson "{"))
  /\ storage_ok (empty_dir true) = true
  /\ dump_ok (PDict one_user) = true
  /\ files (save_users one_user (empty_dir true)) !! TMP_FILE = None.
Proof.
  intros T w.
  destruct (save_users_frame T w) as (_ & _ & _ & Hleft).
  destruct (save_users_frame one_user (empty_dir true)) as (_ & _ & Hgone & _).
  assert (Hd : dump_ok (PDict T) = false) by (vm_compute; reflexivity).
  split; [reflexivity |]. split; [exact Hd |].
  split; [rewrite (Hleft eq_refl Hd); vm_compute; reflexivity |].
  split; [reflexivity |]. split; [reflexivity |].
  exact (Hgone eq_refl eq_refl).
Defined.

Lemma load_users_unreadable_witness :
  load_users (dir_with Ref.NotUtf8 true)
  = (∅, log_exception "Failed to load users.json" (dir_with Ref.NotUtf8 true))
  /\ load_users (Ref.dir {[ USERS_FILE := Dir ]} true)
     = (∅, log_exception "Failed to load users.json"
             (Ref.dir {[ USERS_FILE := Dir ]} true)).
Proof.
  split.
  - apply load_users_unreadable. right.
    exists Ref.NotUtf8, UnicodeDecodeError.
    split; [reflexivity |]. split; [reflexivity | discriminate].
  - apply load_users_unreadable. left. reflexivity.
Defined.

Lemma requests_modulo_space_and_case_witness :
  let w := dir_with (Ref.Document (PDict one_user)) true in
  register (credentials "  A@B.com " (PStr "secret1")) "NaCl" "2024-01-01T00:00:00" w
  = register (credentials "a@b.COM" (PStr "secret1")) "NaCl" "2024-01-01T00:00:00" w
  /\ login (credentials "  A@B.com " (PStr "secret1")) w
     = login (credentials "a@b.COM" (PStr "secret1")) w.
Proof.
  intros w.
  apply (requests_modulo_space_and_case "  " "A@B.com" "a@b.COM" " ");
    reflexivity.
Defined.

Lemma register_stores_witness :
  let w := dir_with (Ref.Document (PDict one_user)) true in
  let w' := (register (credentials "C@D.org" (PStr "hunter22")) "KCl"
                      "2024-02-02T00:00:00" w).2 in
  load_users w'
  = (<["c@d.org" := user_record (Ref.generate "hunter22" "KCl") "2024-02-02T00:00:00Z"]>
       one_user, w').
Proof.
  intros w w'.
  apply (register_stores (credentials "C@D.org" (PStr "hunter22")) "KCl"
           "2024-02-02T00:00:00" w "c@d.org" (PStr "hunter22"));
    reflexivity.
Defined.

Lemma register_unsaved_witness :
  let w := dir_with (Ref.Document (PDict one_user)) false in
  let out := register (credentials "C@D.org" (PStr "hunter22")) "KCl"
                      "2024-02-02T00:00:00" w in
  out.1 = Respond (message "Account created successfully") 201
  /\ (load_users out.2).1 = one_user.
Proof.
  intros w out.
  destruct (register_unsaved (credentials "C@D.org" (PStr "hunter22")) "KCl"
              "2024-02-02T00:00:00" w "c@d.org" (PStr "hunter22"))
    as (Hstatus & Htable & _); try reflexivity.
  split; [exact Hstatus | exact Htable].
Defined.

Lemma one_user_keys_ok : keys_ok one_user.
Proof.
  intros k [v Hv]. unfold one_user in Hv.
  apply lookup_singleton_Some in Hv as [<- _].
  split; reflexivity.
Qed.

Lemma register_keeps_keys_ok_witness :
  let w := dir_with (Ref.Document (PDict one_user)) true in
  keys_ok (load_users w).1
  /\ keys_ok (load_users (register (credentials " New@User.io" (PStr "hunter22")) "KCl"
                                   "2024-02-02T00:00:00" w).2).1.
Proof.
  intros w.
  assert (Hok : keys_ok (load_users w).1) by exact one_user_keys_ok.
  split; [exact Hok |].
  apply register_keeps_keys_ok. exact Hok.
Defined.

Lemma register_then_login_witness :
  let w' := (register (credentials "a@b.com" (PStr "secret1")) "NaCl"
                      "2024-01-01T00:00:00" (empty_dir true)).2 in
  login (credentials " A@B.COM" (PStr "secret1")) w'
  = (Respond (PDict {[ "message" := PStr "Login successful";
                       "user" := PDict {[ "email" := PStr "a@b.com";
                                          "created_at" := PStr "2024-01-01T00:00:00Z" ]} ]})
             200, w').
Proof.
  intros w'.
  apply (register_then_login "a@b.com" " A@B.COM" "secret1" "NaCl"
           "2024-01-01T00:00:00" (empty_dir true));
    try reflexivity.
  discriminate.
Defined.

Lemma login_success_checked_witness :
  let w := dir_with (Ref.Document (PDict one_user)) true in
  exists h,
    (load_users w).1 !! "a@b.com"
    = Some (PDict {[ "password_hash" := h;
                     "created_at" := PStr "2024-01-01T00:00:00Z" ]})
    /\ Ref.check h (PStr "secret1") = inr true.
Proof.
  intros w.
  assert (Hlogin : {payload | login (credentials "a@b.com" (PStr "secret1")) w
                              = (Respond payload 200, w)}).
  { eexists. vm_compute. reflexivity. }
  destruct Hlogin as [payload Hlogin].
  destruct (login_success_checked _ _ _ _ Hlogin)
    as (_ & email & password & r & h & Hc & _ & _ & Hk & Hh & _ & Hcheck).
  vm_compute in Hc. injection Hc as <- <-.
  vm_compute in Hk. injection Hk as <-.
  vm_compute in Hh. injection Hh as <-.
  eexists. split; [reflexivity | exact Hcheck].
Defined.

Lemma login_malformed_record_witness :
  let w := dir_with (Ref.Document (PDict {[ "a@b.com" := PStr "oops" ]})) true in
  login (credentials "a@b.com" (PStr "secret1")) w = (Unhandled AttributeError, w).
Proof.
  intros w.
  apply (login_malformed_record "a@b.com" "secret1" w (PStr "oops"));
    try discriminate; reflexivity.
Defined.

Lemma main_numeric_argument_witness :
  main ∅ ["app.py"; "8080"]
  = Run [("INFO", "Starting Study Tracker Backend on http://127.0.0.1:8080")]
        "127.0.0.1" 8080 true.
Proof.
  apply (main_numeric_argument ∅ "app.py" [] 8080 5000).
  - reflexivity.
  - vm_compute. lia.
Defined.

Lemma main_bad_argument_witness :
  main {[ "PORT" := "8000" ]} ["app.py"; "http"]
  = Run [("WARNING", "Invalid port arg, using default 8000");
         ("INFO", "Starting Study Tracker Backend on http://127.0.0.1:8000")]
        "127.0.0.1" 8000 true.
Proof.
  apply (main_bad_argument {[ "PORT" := "8000" ]} "app.py" "http" [] 8000).
  - reflexivity.
  - right. reflexivity.
Defined.

Lemma main_bad_port_variable_witness :
  main {[ "PORT" := "eighty" ]} ["app.py"; "8080"] = Raised ValueError.
Proof.
  apply (main_bad_port_variable {[ "PORT" := "eighty" ]} "eighty").
  - reflexivity.
  - right. reflexivity.
Defined.

End MoreScenarios.
